(** * Signed distance functions in 3D: a shallow embedding of [sdf3.go]

    Go's [float64] is IEEE 754 binary64 with round-to-nearest-even, which is
    what Rocq's primitive [float] implements, so every arithmetic step of the
    source is modelled with its rounding and can be evaluated.  Each Go
    operation is one rounded operation here (no fused multiply-add, as on
    amd64); the concrete evaluations below are of exactly representable
    intermediate values or have a margin far larger than one rounding.
    Rocq's [float] has a single NaN; nothing in the source inspects NaN
    payloads.

    A struct of the source is a record in a module of its name, with its
    methods; the [SDF3] interface is the record of the two methods, and a
    nil interface value is [None].  Nodes are immutable after construction
    (the [SetMin]/[SetMax] setters return the updated struct).

    Layout: the numeric helpers the source imports ([math], [r2], [r3], [d2],
    [d3], the 4x4 matrix), the structs and constructors of [sdf3.go] that the
    properties below are about, in source order, then the theorems. *)

From Stdlib Require Import Floats ZArith Bool List String Lia.
From Stdlib Require Uint63.
Import ListNotations.
Local Open Scope float_scope.

Set Implicit Arguments.

(** ** Go's [math] package (standard library) *)
Module math.

Definition NaN : float := nan.
Definition Abs (x : float) : float := abs x.
Definition Sqrt (x : float) : float := sqrt x.
Definition IsNaN (f : float) : bool := is_nan f.

(** [IsInf(f, sign)]: [sign > 0] asks for +Inf, [sign < 0] for -Inf. *)
Definition IsInfPos (f : float) : bool := Leibniz.eqb f infinity.
Definition IsInfNeg (f : float) : bool := Leibniz.eqb f neg_infinity.

(** [Signbit] is only ever applied to a zero by [Max] and [Min]. *)
Definition Signbit (x : float) : bool := get_sign x.

(** [math.Max], with its special cases: [Max(x, +Inf) = +Inf],
    [Max(x, NaN) = NaN], [Max(+0, -0) = +0]. *)
Definition Max (x y : float) : float :=
  if IsInfPos x || IsInfPos y then infinity
  else if IsNaN x || IsNaN y then NaN
  else if (x =? 0) && (x =? y) then (if Signbit x then y else x)
  else if y <? x then x
  else y.

(** [math.Min], with its special cases: [Min(x, -Inf) = -Inf],
    [Min(x, NaN) = NaN], [Min(-0, +0) = -0]. *)
Definition Min (x y : float) : float :=
  if IsInfNeg x || IsInfNeg y then neg_infinity
  else if IsNaN x || IsNaN y then NaN
  else if (x =? 0) && (x =? y) then (if Signbit x then x else y)
  else if x <? y then x
  else y.

(** [math.Hypot]: [Sqrt(p*p + q*q)] without undue overflow. *)
Definition Hypot (p q : float) : float :=
  let p := Abs p in
  let q := Abs q in
  if IsInfPos p || IsInfPos q then infinity
  else if IsNaN p || IsNaN q then NaN
  else
    let '(p, q) := if p <? q then (q, p) else (p, q) in
    if p =? 0 then 0
    else
      let q := q / p in
      p * Sqrt (1 + q * q).

(** [math.Pi] rounded to binary64, and the constants built from it. *)
Definition Pi : float := 0x1.921fb54442d18p+1.

End math.

(** Modelled from the spec: the package constant [pi], a "pure constant"
    declared outside [sdf3.go]: [math.Pi]. *)
Definition pi : float := math.Pi.

(** Modelled from the spec: the package constant [tau], declared outside
    [sdf3.go]: [2 * math.Pi], which doubling rounds exactly. *)
Definition tau : float := 0x1.921fb54442d18p+2.

(** ** gonum's [spatial/r2] *)
Module r2.

Record Vec : Set := mkVec { X : float; Y : float }.

Definition Add (p q : Vec) : Vec := mkVec (X p + X q) (Y p + Y q).
Definition Sub (p q : Vec) : Vec := mkVec (X p - X q) (Y p - Y q).
Definition Scale (f : float) (p : Vec) : Vec := mkVec (f * X p) (f * Y p).
Definition Dot (p q : Vec) : float := X p * X q + Y p * Y q.
Definition Norm (p : Vec) : float := math.Hypot (X p) (Y p).

Definition Unit (p : Vec) : Vec :=
  if (X p =? 0) && (Y p =? 0) then mkVec math.NaN math.NaN
  else Scale (1 / Norm p) p.

End r2.

(** ** gonum's [spatial/r3] *)
Module r3.

Record Vec : Set := mkVec { X : float; Y : float; Z : float }.

Definition Add (p q : Vec) : Vec := mkVec (X p + X q) (Y p + Y q) (Z p + Z q).
Definition Sub (p q : Vec) : Vec := mkVec (X p - X q) (Y p - Y q) (Z p - Z q).
Definition Scale (f : float) (p : Vec) : Vec := mkVec (f * X p) (f * Y p) (f * Z p).
Definition Dot (p q : Vec) : float := X p * X q + Y p * Y q + Z p * Z q.
Definition Norm (p : Vec) : float := math.Hypot (X p) (math.Hypot (Y p) (Z p)).

Definition Unit (p : Vec) : Vec :=
  if (X p =? 0) && (Y p =? 0) && (Z p =? 0)
  then mkVec math.NaN math.NaN math.NaN
  else Scale (1 / Norm p) p.

End r3.

(** ** The repository's [internal/d2]

    The package is not among the sources; what [sdf3.go] uses of it is
    modelled from the spec's description of the vector and box primitives
    ("elementwise ops, min/max, box union"). *)
Module d2.

(** Modelled from the spec: [d2.MinElem], the elementwise minimum of two
    vectors ([internal/d2] is missing). *)
Definition MinElem (a b : r2.Vec) : r2.Vec :=
  r2.mkVec (math.Min (r2.X a) (r2.X b)) (math.Min (r2.Y a) (r2.Y b)).

(** Modelled from the spec: [d2.MaxElem], the elementwise maximum of two
    vectors ([internal/d2] is missing). *)
Definition MaxElem (a b : r2.Vec) : r2.Vec :=
  r2.mkVec (math.Max (r2.X a) (r2.X b)) (math.Max (r2.Y a) (r2.Y b)).

(** Modelled from the spec: [d2.MulElem], the elementwise product of two
    vectors ([internal/d2] is missing). *)
Definition MulElem (a b : r2.Vec) : r2.Vec :=
  r2.mkVec (r2.X a * r2.X b) (r2.Y a * r2.Y b).

(** Modelled from the spec: [d2.Set], a set of vertices ([internal/d2] is
    missing). *)
Definition Set_ : Set := list r2.Vec.

(** Modelled from the spec: [Set.Min], the elementwise minimum of a vertex
    set ([internal/d2] is missing).  The source only calls it on non-empty
    sets, where the fold starts from the first vertex. *)
Definition SetMin (a : Set_) : r2.Vec :=
  fold_left MinElem a (hd (r2.mkVec 0 0) a).

(** Modelled from the spec: [Set.Max], the elementwise maximum of a vertex
    set ([internal/d2] is missing), as [SetMin]. *)
Definition SetMax (a : Set_) : r2.Vec :=
  fold_left MaxElem a (hd (r2.mkVec 0 0) a).

Module Box.
(** Modelled from the spec: [d2.Box], a [(min, max)] pair of vectors
    ([internal/d2] is missing). *)
Record t : Set := mk { Min : r2.Vec; Max : r2.Vec }.

(** Modelled from the spec: [Box.Extend], the box union ([internal/d2] is
    missing). *)
Definition Extend (a b : t) : t :=
  mk (MinElem (Min a) (Min b)) (MaxElem (Max a) (Max b)).
End Box.

End d2.

(** ** The repository's [internal/d3]

    Not among the sources either; modelled like [d2]. *)
Module d3.

(** Modelled from the spec: [d3.Elem], the vector with three equal
    components ([internal/d3] is missing). *)
Definition Elem (x : float) : r3.Vec := r3.mkVec x x x.

(** Modelled from the spec: [d3.AbsElem], the componentwise absolute value
    ([internal/d3] is missing). *)
Definition AbsElem (a : r3.Vec) : r3.Vec :=
  r3.mkVec (math.Abs (r3.X a)) (math.Abs (r3.Y a)) (math.Abs (r3.Z a)).

(** Modelled from the spec: [d3.MinElem], the elementwise minimum of two
    vectors ([internal/d3] is missing). *)
Definition MinElem (a b : r3.Vec) : r3.Vec :=
  r3.mkVec (math.Min (r3.X a) (r3.X b)) (math.Min (r3.Y a) (r3.Y b))
           (math.Min (r3.Z a) (r3.Z b)).

(** Modelled from the spec: [d3.MaxElem], the elementwise maximum of two
    vectors ([internal/d3] is missing). *)
Definition MaxElem (a b : r3.Vec) : r3.Vec :=
  r3.mkVec (math.Max (r3.X a) (r3.X b)) (math.Max (r3.Y a) (r3.Y b))
           (math.Max (r3.Z a) (r3.Z b)).

(** Modelled from the spec: [d3.MulElem], the elementwise product of two
    vectors ([internal/d3] is missing). *)
Definition MulElem (a b : r3.Vec) : r3.Vec :=
  r3.mkVec (r3.X a * r3.X b) (r3.Y a * r3.Y b) (r3.Z a * r3.Z b).

(** Modelled from the spec: [d3.Max], the largest of the three components,
    "the maximum of the three signed axis penetrations" of the box distance
    ([internal/d3] is missing). *)
Definition Max (a : r3.Vec) : float :=
  math.Max (r3.X a) (math.Max (r3.Y a) (r3.Z a)).

(** Modelled from the spec: [d3.LTEZero], the test behind the failure
    ["size <= 0"]: some component is [<= 0] ([internal/d3] is missing). *)
Definition LTEZero (a : r3.Vec) : bool :=
  (r3.X a <=? 0) || (r3.Y a <=? 0) || (r3.Z a <=? 0).

(** Modelled from the spec: the scalar clamp of [x] to [[a, b]] behind
    [d3.Clamp] ([internal/d3] is missing). *)
Definition clamp (x a b : float) : float :=
  if x <? a then a else if b <? x then b else x.

(** Modelled from the spec: [d3.Clamp], the "per-axis clamp" of a point
    between two corners ([internal/d3] is missing). *)
Definition Clamp (x a b : r3.Vec) : r3.Vec :=
  r3.mkVec (clamp (r3.X x) (r3.X a) (r3.X b))
           (clamp (r3.Y x) (r3.Y a) (r3.Y b))
           (clamp (r3.Z x) (r3.Z a) (r3.Z b)).

Module Box.
(** Modelled from the spec: [d3.Box], the axis-aligned box, a [(min, max)]
    pair of vectors ([internal/d3] is missing). *)
Record t : Set := mk { Min : r3.Vec; Max : r3.Vec }.

(** Modelled from the spec: [Box.Extend], the box union ([internal/d3] is
    missing). *)
Definition Extend (a b : t) : t :=
  mk (MinElem (Min a) (Min b)) (MaxElem (Max a) (Max b)).

(** Modelled from the spec: [Box.Translate], the box moved by a vector
    ([internal/d3] is missing). *)
Definition Translate (a : t) (v : r3.Vec) : t :=
  mk (r3.Add (Min a) v) (r3.Add (Max a) v).

(** Modelled from the spec: [Box.Vertices], the enumeration of the 8 corners
    ([internal/d3] is missing). *)
Definition Vertices (a : t) : list r3.Vec :=
  let lo := Min a in
  let hi := Max a in
  [ r3.mkVec (r3.X lo) (r3.Y lo) (r3.Z lo);
    r3.mkVec (r3.X lo) (r3.Y lo) (r3.Z hi);
    r3.mkVec (r3.X lo) (r3.Y hi) (r3.Z lo);
    r3.mkVec (r3.X lo) (r3.Y hi) (r3.Z hi);
    r3.mkVec (r3.X hi) (r3.Y lo) (r3.Z lo);
    r3.mkVec (r3.X hi) (r3.Y lo) (r3.Z hi);
    r3.mkVec (r3.X hi) (r3.Y hi) (r3.Z lo);
    r3.mkVec (r3.X hi) (r3.Y hi) (r3.Z hi) ].
End Box.

End d3.

(** ** Interfaces, errors and results *)

(** The [SDF3] interface: any value with the two methods.  A Go interface
    value may also be [nil]; that is [option SDF3] below, and a parameter of
    type [SDF3] is one the source dereferences without a nil check. *)
Record SDF3 : Type := mkSDF3 {
  Evaluate : r3.Vec -> float;
  BoundingBox : d3.Box.t
}.

(** The [SDF2] interface of the 2D sibling algebra, consumed as a capability. *)
Record SDF2 : Type := mkSDF2 {
  Evaluate2 : r2.Vec -> float;
  BoundingBox2 : d2.Box.t
}.

(** A struct type satisfies [SDF3] through its two methods; [ref s] is the
    interface value the constructors return for [&s]. *)
Class SDF3Methods (T : Type) : Type := {
  evaluate : T -> r3.Vec -> float;
  boundingBox : T -> d3.Box.t
}.

Definition ref {T : Type} `{SDF3Methods T} (s : T) : SDF3 :=
  mkSDF3 (evaluate s) (boundingBox s).

(** Modelled from the spec: the validation failure the constructors return
    ([ErrMsg] is declared outside [sdf3.go]); it carries the message. *)
Inductive error : Set := ErrMsg (msg : string).

(** Go's [(SDF3, error)] result pair. *)
Definition result : Type := (option SDF3 * option error)%type.

Definition ok (s : SDF3) : result := (Some s, None).
Definition fail (msg : string) : result := (None, Some (ErrMsg msg)).

(** A constructor call failed: no value, and an error. *)
Definition failed (r : result) : Prop :=
  fst r = None /\ exists msg, snd r = Some (ErrMsg msg).

(** The blend functions of the boolean combinators. *)
Definition MinFunc : Type := float -> float -> float.
Definition MaxFunc : Type := float -> float -> float.

(** ** Box *)

Definition sdfBox3d (p s : r3.Vec) : float :=
  let d := r3.Sub (d3.AbsElem p) s in
  if (0 <? r3.X d) && (0 <? r3.Y d) && (0 <? r3.Z d) then r3.Norm d
  else if (0 <? r3.X d) && (0 <? r3.Y d) then math.Hypot (r3.X d) (r3.Y d)
  else if (0 <? r3.X d) && (0 <? r3.Z d) then math.Hypot (r3.X d) (r3.Z d)
  else if (0 <? r3.Y d) && (0 <? r3.Z d) then math.Hypot (r3.Y d) (r3.Z d)
  else if 0 <? r3.X d then r3.X d
  else if 0 <? r3.Y d then r3.Y d
  else if 0 <? r3.Z d then r3.Z d
  else d3.Max d.

Module BoxSDF3.
Record t : Set := mk { size : r3.Vec; round : float; bb : d3.Box.t }.

Definition Evaluate (s : t) (p : r3.Vec) : float :=
  sdfBox3d p (size s) - round s.

Definition BoundingBox (s : t) : d3.Box.t := bb s.
End BoxSDF3.

#[export] Instance BoxSDF3_SDF3 : SDF3Methods BoxSDF3.t :=
  {| evaluate := BoxSDF3.Evaluate; boundingBox := BoxSDF3.BoundingBox |}.

Definition Box3D (size : r3.Vec) (round : float) : result :=
  if d3.LTEZero size then fail "size <= 0"
  else if round <? 0 then fail "round < 0"
  else
    let size := r3.Scale 0.5 size in
    let s := BoxSDF3.mk (r3.Sub size (d3.Elem round)) round
                        (d3.Box.mk (r3.Scale (-1) size) size) in
    ok (ref s).

(** ** Sphere *)

Module SphereSDF3.
Record t : Set := mk { radius : float; bb : d3.Box.t }.

Definition Evaluate (s : t) (p : r3.Vec) : float := r3.Norm p - radius s.

Definition BoundingBox (s : t) : d3.Box.t := bb s.
End SphereSDF3.

#[export] Instance SphereSDF3_SDF3 : SDF3Methods SphereSDF3.t :=
  {| evaluate := SphereSDF3.Evaluate; boundingBox := SphereSDF3.BoundingBox |}.

Definition Sphere3D (radius : float) : result :=
  if radius <=? 0 then fail "radius <= 0"
  else
    let d := r3.mkVec radius radius radius in
    let s := SphereSDF3.mk radius (d3.Box.mk (r3.Scale (-1) d) d) in
    ok (ref s).


(** ** The 4x4 transformation matrix

    [sdf3.go] uses the matrix type only through four operations, which are
    declared in another file of the package.  The constructors below take them
    as an interface, so what is proved of them holds for every
    implementation. *)
Class M44Ops (m44 : Type) : Type := {
  Inverse : m44 -> m44;
  MulPosition : m44 -> r3.Vec -> r3.Vec;
  MulBox : m44 -> d3.Box.t -> d3.Box.t;
  Scale3d : r3.Vec -> m44
}.

(** ** Solid of revolution *)

Module SorSDF3.
Record t : Type := mk {
  sdf : SDF2;
  theta : float;   (* angle for partial revolutions *)
  norm : r2.Vec;   (* pre-calculated normal to theta line *)
  bb : d3.Box.t
}.

Definition Evaluate (s : t) (p : r3.Vec) : float :=
  let x := math.Sqrt (r3.X p * r3.X p + r3.Y p * r3.Y p) in
  let a := Evaluate2 (sdf s) (r2.mkVec x (r3.Z p)) in
  let b :=
    if negb (theta s =? 0) then
      let d := r2.Dot (norm s) (r2.mkVec (r3.X p) (r3.Y p)) in
      if theta s <? pi then math.Max (- r3.Y p) d
      else math.Min (- r3.Y p) d
    else a in
  math.Max a b.

Definition BoundingBox (s : t) : d3.Box.t := bb s.
End SorSDF3.

#[export] Instance SorSDF3_SDF3 : SDF3Methods SorSDF3.t :=
  {| evaluate := SorSDF3.Evaluate; boundingBox := SorSDF3.BoundingBox |}.

Section Revolve.

(** [math.Mod], [math.Sin] and [math.Cos] of Go's standard library. *)
Variable Mod : float -> float -> float.
Variables Sin Cos : float -> float.

(** The struct [RevolveTheta3D] fills in for a non-nil profile and an
    accepted angle. *)
Definition newSorSDF3 (sdf : SDF2) (theta : float) : SorSDF3.t :=
  let s_theta := Mod (math.Abs theta) tau in
  let sin := Sin s_theta in
  let cos := Cos s_theta in
  let s_norm := r2.mkVec (- sin) cos in
  let vset : d2.Set_ :=
    if s_theta =? 0 then [r2.mkVec 1 1; r2.mkVec (-1) (-1)]
    else
      let vset := [r2.mkVec 0 0; r2.mkVec 1 0; r2.mkVec cos sin] in
      let vset := if 0x1.921fb54442d18p+0 <? s_theta   (* 0.5*pi *)
                  then vset ++ [r2.mkVec 0 1] else vset in
      let vset := if pi <? s_theta then vset ++ [r2.mkVec (-1) 0] else vset in
      let vset := if 0x1.2d97c7f3321d2p+2 <? s_theta   (* 1.5*pi *)
                  then vset ++ [r2.mkVec 0 (-1)] else vset in
      vset in
  let bb := BoundingBox2 sdf in
  let l := math.Max (math.Abs (r2.X (d2.Box.Min bb)))
                    (math.Abs (r2.X (d2.Box.Max bb))) in
  let vmin := r2.Scale l (d2.SetMin vset) in
  let vmax := r2.Scale l (d2.SetMax vset) in
  SorSDF3.mk sdf s_theta s_norm
    (d3.Box.mk (r3.mkVec (r2.X vmin) (r2.Y vmin) (r2.Y (d2.Box.Min bb)))
               (r3.mkVec (r2.X vmax) (r2.Y vmax) (r2.Y (d2.Box.Max bb)))).

Definition RevolveTheta3D (sdf : option SDF2) (theta : float) : result :=
  match sdf with
  | None => (None, None)
  | Some sdf =>
      if theta <? 0 then fail "theta < 0"
      else ok (ref (newSorSDF3 sdf theta))
  end.

Definition Revolve3D (sdf : option SDF2) : result := RevolveTheta3D sdf 0.

End Revolve.

(** ** Cylinder *)

Module CylinderSDF3.
Record t : Set := mk {
  height : float;
  radius : float;
  round : float;
  bb : d3.Box.t
}.

Section Evaluate.
(** [sdfBox2d], the 2D box distance of the sibling 2D file. *)
Variable sdfBox2d : r2.Vec -> r2.Vec -> float.

Definition Evaluate (s : t) (p : r3.Vec) : float :=
  let d := sdfBox2d (r2.mkVec (r2.Norm (r2.mkVec (r3.X p) (r3.Y p))) (r3.Z p))
                    (r2.mkVec (radius s) (height s)) in
  d - round s.
End Evaluate.

Definition BoundingBox (s : t) : d3.Box.t := bb s.
End CylinderSDF3.

Section Cylinder.
Variable sdfBox2d : r2.Vec -> r2.Vec -> float.

Definition CylinderSDF3_SDF3 : SDF3Methods CylinderSDF3.t :=
  {| evaluate := CylinderSDF3.Evaluate sdfBox2d;
     boundingBox := CylinderSDF3.BoundingBox |}.

Definition Cylinder3D (height radius round : float) : result :=
  if radius <=? 0 then fail "radius <= 0"
  else if round <? 0 then fail "round < 0"
  else if radius <? round then fail "round > radius"
  else if height <? 2 * round then fail "height < 2 * round"
  else
    let d := r3.mkVec radius radius (height / 2) in
    let s := CylinderSDF3.mk ((height / 2) - round) (radius - round) round
                             (d3.Box.mk (r3.Scale (-1) d) d) in
    ok (@ref _ CylinderSDF3_SDF3 s).

Definition Capsule3D (height radius : float) : result :=
  Cylinder3D height radius radius.

End Cylinder.

(** ** Truncated cone *)

Module ConeSDF3.
Record t : Set := mk {
  r0 : float;      (* base radius *)
  r1 : float;      (* top radius *)
  height : float;  (* half height *)
  round : float;   (* rounding offset *)
  u : r2.Vec;      (* normalized cone slope vector *)
  n : r2.Vec;      (* normal to cone slope (points outward) *)
  l : float;       (* length of cone slope *)
  bb : d3.Box.t    (* bounding box *)
}.

Definition Evaluate (s : t) (p : r3.Vec) : float :=
  let p2 := r2.mkVec (math.Hypot (r3.X p) (r3.Y p)) (r3.Z p) in
  if (height s <=? r2.Y p2) && (r2.X p2 <=? r1 s) then
    r2.Y p2 - height s - round s
  else if (r2.Y p2 <=? - height s) && (r2.X p2 <=? r0 s) then
    - r2.Y p2 - height s - round s
  else
    let v := r2.Sub p2 (r2.mkVec (r0 s) (- height s)) in
    let dSlope := r2.Dot v (n s) in
    if (dSlope <? 0) && (math.Abs (r2.Y p2) <? height s) then
      - math.Min (- dSlope) (height s - math.Abs (r2.Y p2)) - round s
    else
      let t := r2.Dot v (u s) in
      if (0 <=? t) && (t <=? l s) then dSlope - round s
      else if t <? 0 then r2.Norm v - round s
      else r2.Norm (r2.Sub p2 (r2.mkVec (r1 s) (height s))) - round s.

Definition BoundingBox (s : t) : d3.Box.t := bb s.
End ConeSDF3.

#[export] Instance ConeSDF3_SDF3 : SDF3Methods ConeSDF3.t :=
  {| evaluate := ConeSDF3.Evaluate; boundingBox := ConeSDF3.BoundingBox |}.

Definition Cone3D (height r0 r1 round : float) : result :=
  if height <=? 0 then fail "height <= 0"
  else if round <? 0 then fail "round < 0"
  else if height <? 2 * round then fail "height < 2 * round"
  else
    let s_height := (height / 2) - round in
    let s_u := r2.Unit (r2.Sub (r2.mkVec r1 (height / 2))
                               (r2.mkVec r0 ((- height) / 2))) in
    let s_n := r2.mkVec (r2.Y s_u) (- r2.X s_u) in
    let ofs := round / r2.X s_n in
    let s_r0 := r0 - (1 + r2.Y s_n) * ofs in
    let s_r1 := r1 - (1 - r2.Y s_n) * ofs in
    let s_l := r2.Norm (r2.Sub (r2.mkVec s_r1 s_height)
                               (r2.mkVec s_r0 (- s_height))) in
    let r := math.Max (s_r0 + round) (s_r1 + round) in
    let s := ConeSDF3.mk s_r0 s_r1 s_height round s_u s_n s_l
               (d3.Box.mk (r3.mkVec (- r) (- r) ((- height) / 2))
                          (r3.mkVec r r (height / 2))) in
    ok (ref s).

(** ** Transform *)

Module TransformSDF3.
Record t (m44 : Type) : Type := mk {
  sdf : SDF3;
  matrix : m44;
  inverse : m44;
  bb : d3.Box.t
}.

Definition Evaluate {m44 : Type} `{M44Ops m44} (s : t m44) (p : r3.Vec) : float :=
  Evaluate (sdf s) (MulPosition (inverse s) p).

Definition BoundingBox {m44 : Type} (s : t m44) : d3.Box.t := bb s.
End TransformSDF3.

#[export] Instance TransformSDF3_SDF3 {m44 : Type} `{M44Ops m44} :
  SDF3Methods (TransformSDF3.t m44) :=
  {| evaluate := TransformSDF3.Evaluate;
     boundingBox := @TransformSDF3.BoundingBox m44 |}.

Definition Transform3D {m44 : Type} `{M44Ops m44} (sdf : SDF3) (matrix : m44) : SDF3 :=
  let s := TransformSDF3.mk sdf matrix (Inverse matrix)
                            (MulBox matrix (BoundingBox sdf)) in
  ref s.

(** ** Uniform scaling *)

Module ScaleUniformSDF3.
Record t : Type := mk {
  sdf : SDF3;
  k : float;
  invK : float;
  bb : d3.Box.t
}.

Definition Evaluate (s : t) (p : r3.Vec) : float :=
  let q := r3.Scale (invK s) p in
  Evaluate (sdf s) q * k s.

Definition BoundingBox (s : t) : d3.Box.t := bb s.
End ScaleUniformSDF3.

#[export] Instance ScaleUniformSDF3_SDF3 : SDF3Methods ScaleUniformSDF3.t :=
  {| evaluate := ScaleUniformSDF3.Evaluate;
     boundingBox := ScaleUniformSDF3.BoundingBox |}.

Definition ScaleUniform3D (m44 : Type) `{M44Ops m44} (sdf : SDF3) (k : float) : SDF3 :=
  let m : m44 := Scale3d (r3.mkVec k k k) in
  ref (ScaleUniformSDF3.mk sdf k (1 / k) (MulBox m (BoundingBox sdf))).

Arguments ScaleUniform3D m44 {_} sdf k.

(** ** Union *)

Module UnionSDF3.
Record t : Type := mk {
  sdf : list SDF3;
  min : MinFunc;
  bb : d3.Box.t
}.

(** The loop starts from the zero value of [d] and overwrites it at index 0. *)
Definition Evaluate (s : t) (p : r3.Vec) : float :=
  match sdf s with
  | [] => 0
  | x0 :: xs =>
      fold_left (fun d x => min s d (Evaluate x p)) xs (Evaluate x0 p)
  end.

Definition SetMin (s : t) (min : MinFunc) : t := mk (sdf s) min (bb s).

Definition BoundingBox (s : t) : d3.Box.t := bb s.
End UnionSDF3.

#[export] Instance UnionSDF3_SDF3 : SDF3Methods UnionSDF3.t :=
  {| evaluate := UnionSDF3.Evaluate; boundingBox := UnionSDF3.BoundingBox |}.

(** The first loop of [Union3D]: append every non-nil argument. *)
Definition stripNils (sdf : list (option SDF3)) : list SDF3 :=
  fold_left (fun acc x => match x with
                          | Some x => acc ++ [x]
                          | None => acc
                          end) sdf [].

Definition Union3D (sdf : list (option SDF3)) : option SDF3 :=
  match sdf with
  | [] => None
  | _ :: _ =>
      let s_sdf := stripNils sdf in
      match s_sdf with
      | [] => None
      | [x] => Some x            (* only one sdf - not really a union *)
      | x0 :: _ :: _ =>
          let bb := fold_left (fun bb x => d3.Box.Extend bb (BoundingBox x))
                              s_sdf (BoundingBox x0) in
          Some (ref (UnionSDF3.mk s_sdf math.Min bb))
      end
  end.

(** ** Difference *)

Module DifferenceSDF3.
Record t : Type := mk {
  s0 : SDF3;
  s1 : SDF3;
  max : MaxFunc;
  bb : d3.Box.t
}.

Definition Evaluate (s : t) (p : r3.Vec) : float :=
  max s (Evaluate (s0 s) p) (- Evaluate (s1 s) p).

Definition SetMax (s : t) (max : MaxFunc) : t := mk (s0 s) (s1 s) max (bb s).

Definition BoundingBox (s : t) : d3.Box.t := bb s.
End DifferenceSDF3.

#[export] Instance DifferenceSDF3_SDF3 : SDF3Methods DifferenceSDF3.t :=
  {| evaluate := DifferenceSDF3.Evaluate;
     boundingBox := DifferenceSDF3.BoundingBox |}.

Definition Difference3D (s0 s1 : option SDF3) : option SDF3 :=
  match s1 with
  | None => s0
  | Some b =>
      match s0 with
      | None => None
      | Some a =>
          Some (ref (DifferenceSDF3.mk a b math.Max (BoundingBox a)))
      end
  end.

(** ** Elongation *)

Module ElongateSDF3.
Record t : Type := mk {
  sdf : SDF3;     (* the sdf being elongated *)
  hp : r3.Vec;    (* positive elongation vector *)
  hn : r3.Vec;    (* negative elongation vector *)
  bb : d3.Box.t   (* bounding box *)
}.

Definition Evaluate (s : t) (p : r3.Vec) : float :=
  let q := r3.Sub p (d3.Clamp p (hn s) (hp s)) in
  Evaluate (sdf s) q.

Definition BoundingBox (s : t) : d3.Box.t := bb s.
End ElongateSDF3.

#[export] Instance ElongateSDF3_SDF3 : SDF3Methods ElongateSDF3.t :=
  {| evaluate := ElongateSDF3.Evaluate;
     boundingBox := ElongateSDF3.BoundingBox |}.

Definition Elongate3D (sdf : SDF3) (h : r3.Vec) : SDF3 :=
  let h := d3.AbsElem h in
  let hp := r3.Scale 0.5 h in
  let hn := r3.Scale (-0.5) h in
  let bb := BoundingBox sdf in
  let bb0 := d3.Box.Translate bb hp in
  let bb1 := d3.Box.Translate bb hn in
  ref (ElongateSDF3.mk sdf hp hn (d3.Box.Extend bb0 bb1)).

(** ** Intersection *)

Module IntersectionSDF3.
Record t : Type := mk {
  s0 : SDF3;
  s1 : SDF3;
  max : MaxFunc;
  bb : d3.Box.t
}.

Definition Evaluate (s : t) (p : r3.Vec) : float :=
  max s (Evaluate (s0 s) p) (Evaluate (s1 s) p).

Definition SetMax (s : t) (max : MaxFunc) : t := mk (s0 s) (s1 s) max (bb s).

Definition BoundingBox (s : t) : d3.Box.t := bb s.
End IntersectionSDF3.

#[export] Instance IntersectionSDF3_SDF3 : SDF3Methods IntersectionSDF3.t :=
  {| evaluate := IntersectionSDF3.Evaluate;
     boundingBox := IntersectionSDF3.BoundingBox |}.

Definition Intersect3D (s0 s1 : option SDF3) : option SDF3 :=
  match s0, s1 with
  | Some a, Some b =>
      (* TODO fix bounding box *)
      Some (ref (IntersectionSDF3.mk a b math.Max (BoundingBox a)))
  | _, _ => None
  end.

(** ** Planar cut *)

Module CutSDF3.
Record t : Type := mk {
  sdf : SDF3;
  a : r3.Vec;     (* point on plane *)
  n : r3.Vec;     (* normal to plane *)
  bb : d3.Box.t   (* bounding box *)
}.

Definition Evaluate (s : t) (p : r3.Vec) : float :=
  math.Max (r3.Dot (r3.Sub p (a s)) (n s)) (Evaluate (sdf s) p).

Definition BoundingBox (s : t) : d3.Box.t := bb s.
End CutSDF3.

#[export] Instance CutSDF3_SDF3 : SDF3Methods CutSDF3.t :=
  {| evaluate := CutSDF3.Evaluate; boundingBox := CutSDF3.BoundingBox |}.

Definition Cut3D (sdf : SDF3) (a n : r3.Vec) : SDF3 :=
  (* TODO - cut the bounding box *)
  ref (CutSDF3.mk sdf a (r3.Scale (-1) (r3.Unit n)) (BoundingBox sdf)).

(** ** A model of the 4x4 matrix *)

(** The matrix file of the package is not among the sources.  This model
    follows the spec's description of the 4x4 affine transform: "composition,
    inverse, application to points and to boxes (via vertex enumeration +
    min/max)".  It serves the concrete round trips; the theorems about
    [Transform3D] and [ScaleUniform3D] hold for every [M44Ops]. *)
Module m44.
(** Modelled from the spec: the 4x4 matrix type [m44], row by row (the matrix
    file is missing). *)
Record t : Set := mk {
  x00 : float; x01 : float; x02 : float; x03 : float;
  x10 : float; x11 : float; x12 : float; x13 : float;
  x20 : float; x21 : float; x22 : float; x23 : float;
  x30 : float; x31 : float; x32 : float; x33 : float
}.

(** Modelled from the spec: [Identity3d] (the matrix file is missing). *)
Definition Identity3d : t :=
  mk 1 0 0 0
     0 1 0 0
     0 0 1 0
     0 0 0 1.

(** Modelled from the spec: [Translate3d], the translation by [v] (the
    matrix file is missing). *)
Definition Translate3d (v : r3.Vec) : t :=
  mk 1 0 0 (r3.X v)
     0 1 0 (r3.Y v)
     0 0 1 (r3.Z v)
     0 0 0 1.

(** Modelled from the spec: [Scale3d], the scaling by [v] per axis (the
    matrix file is missing). *)
Definition Scale3d (v : r3.Vec) : t :=
  mk (r3.X v) 0 0 0
     0 (r3.Y v) 0 0
     0 0 (r3.Z v) 0
     0 0 0 1.

(** Modelled from the spec: [MulPosition], the application of the affine
    transform to a point (the matrix file is missing). *)
Definition MulPosition (a : t) (b : r3.Vec) : r3.Vec :=
  r3.mkVec (x00 a * r3.X b + x01 a * r3.Y b + x02 a * r3.Z b + x03 a)
           (x10 a * r3.X b + x11 a * r3.Y b + x12 a * r3.Z b + x13 a)
           (x20 a * r3.X b + x21 a * r3.Y b + x22 a * r3.Z b + x23 a).

(** Entry [(i, j)] of a matrix, for the cofactors below. *)
Definition get (a : t) (i j : nat) : float :=
  match i, j with
  | 0, 0 => x00 a | 0, 1 => x01 a | 0, 2 => x02 a | 0, _ => x03 a
  | 1, 0 => x10 a | 1, 1 => x11 a | 1, 2 => x12 a | 1, _ => x13 a
  | 2, 0 => x20 a | 2, 1 => x21 a | 2, 2 => x22 a | 2, _ => x23 a
  | _, 0 => x30 a | _, 1 => x31 a | _, 2 => x32 a | _, _ => x33 a
  end%nat.

(** The 3x3 determinant, expanded along the first row. *)
Definition det3 (a b c d e f g h i : float) : float :=
  a * (e * i - f * h) - b * (d * i - f * g) + c * (d * h - e * g).

(** The three indices of [0..3] other than [i]. *)
Definition others (i : nat) : nat * nat * nat :=
  match i with
  | 0 => (1, 2, 3)
  | 1 => (0, 2, 3)
  | 2 => (0, 1, 3)
  | _ => (0, 1, 2)
  end%nat.

(** The minor and the cofactor of entry [(i, j)]. *)
Definition minor (a : t) (i j : nat) : float :=
  let '(r0, r1, r2) := others i in
  let '(c0, c1, c2) := others j in
  det3 (get a r0 c0) (get a r0 c1) (get a r0 c2)
       (get a r1 c0) (get a r1 c1) (get a r1 c2)
       (get a r2 c0) (get a r2 c1) (get a r2 c2).

Definition cofactor (a : t) (i j : nat) : float :=
  if Nat.even (i + j) then minor a i j else - minor a i j.

(** Modelled from the spec: [Determinant], expanded along the first row (the
    matrix file is missing). *)
Definition Determinant (a : t) : float :=
  x00 a * cofactor a 0%nat 0%nat + x01 a * cofactor a 0%nat 1%nat
  + x02 a * cofactor a 0%nat 2%nat + x03 a * cofactor a 0%nat 3%nat.

(** Modelled from the spec: [Inverse], the "inverse" of the transform, as the
    adjugate divided by the determinant (the matrix file is missing). *)
Definition Inverse (a : t) : t :=
  let d := Determinant a in
  let c (i j : nat) : float := cofactor a j i / d in
  let i0 := 0%nat in
  let i1 := 1%nat in
  let i2 := 2%nat in
  let i3 := 3%nat in
  mk (c i0 i0) (c i0 i1) (c i0 i2) (c i0 i3)
     (c i1 i0) (c i1 i1) (c i1 i2) (c i1 i3)
     (c i2 i0) (c i2 i1) (c i2 i2) (c i2 i3)
     (c i3 i0) (c i3 i1) (c i3 i2) (c i3 i3).

(** Modelled from the spec: [MulBox], "mapping all 8 corner vertices of the
    child's box through the forward matrix and taking their min/max" (the
    matrix file is missing). *)
Definition MulBox (a : t) (box : d3.Box.t) : d3.Box.t :=
  let v := map (MulPosition a) (d3.Box.Vertices box) in
  let v0 := hd (r3.mkVec 0 0 0) v in
  d3.Box.mk (fold_left d3.MinElem v v0) (fold_left d3.MaxElem v v0).
End m44.

#[export] Instance m44_M44Ops : M44Ops m44.t :=
  {| Inverse := m44.Inverse;
     MulPosition := m44.MulPosition;
     MulBox := m44.MulBox;
     Scale3d := m44.Scale3d |}.

(** ** Sample values used by the concrete checks *)

(** The rotation about the z axis with cosine 0.6 and sine 0.8, each
    rounded to binary64 as Go rounds the literals. *)
Definition rotZ_3_4_5 : m44.t :=
  let c := 0x1.3333333333333p-1 in
  let s := 0x1.999999999999ap-1 in
  m44.mk c (- s) 0 0
         s c 0 0
         0 0 1 0
         0 0 0 1.

(** The shear [x' = x + y]; every entry of it and of its inverse is a small
    integer, so no step of the round trip rounds. *)
Definition shearXY : m44.t :=
  m44.mk 1 1 0 0
         0 1 0 0
         0 0 1 0
         0 0 0 1.

(** A hand-written [SDF3]: the distance to the plane [x = 0], with the box
    [[-1,1]^3]. *)
Definition planeX : SDF3 :=
  mkSDF3 (fun p => r3.X p)
         (d3.Box.mk (r3.mkVec (-1) (-1) (-1)) (r3.mkVec 1 1 1)).


(** A hand-written [SDF2] profile: the unit disc. *)
Definition unitDisc : SDF2 :=
  mkSDF2 (fun q => r2.Norm q - 1)
         (d2.Box.mk (r2.mkVec (-1) (-1)) (r2.mkVec 1 1)).

(** A solid of revolution of the unit disc with the given normalized angle
    and boundary normal, as [RevolveTheta3D] would fill them in. *)
Definition sorOf (theta : float) (norm : r2.Vec) : SorSDF3.t :=
  SorSDF3.mk unitDisc theta norm
             (d3.Box.mk (r3.mkVec (-1) (-1) (-1)) (r3.mkVec 1 1 1)).

(** ** More of [sdf3.go]: extrusions *)

(** The extrusion control function: the 2D point a 3D point projects to. *)
Definition ExtrudeFunc : Type := r3.Vec -> r2.Vec.

Module ExtrudeSDF3.
Record t : Type := mk {
  sdf : SDF2;
  height : float;
  extrude : ExtrudeFunc;
  bb : d3.Box.t
}.

Definition Evaluate (s : t) (p : r3.Vec) : float :=
  (* sdf for the projected 2d surface *)
  let a := Evaluate2 (sdf s) (extrude s p) in
  (* sdf for the extrusion region: z = [-height, height] *)
  let b := math.Abs (r3.Z p) - height s in
  (* return the intersection *)
  math.Max a b.

Definition SetExtrude (s : t) (extrude : ExtrudeFunc) : t :=
  mk (sdf s) (height s) extrude (bb s).

Definition BoundingBox (s : t) : d3.Box.t := bb s.
End ExtrudeSDF3.

#[export] Instance ExtrudeSDF3_SDF3 : SDF3Methods ExtrudeSDF3.t :=
  {| evaluate := ExtrudeSDF3.Evaluate; boundingBox := ExtrudeSDF3.BoundingBox |}.

Module ExtrudeRoundedSDF3.
Record t : Type := mk {
  sdf : SDF2;
  height : float;
  round : float;
  bb : d3.Box.t
}.

Definition Evaluate (s : t) (p : r3.Vec) : float :=
  (* sdf for the projected 2d surface *)
  let a := Evaluate2 (sdf s) (r2.mkVec (r3.X p) (r3.Y p)) in
  let b := math.Abs (r3.Z p) - height s in
  let d :=
    if 0 <? b then
      (* outside the object Z extent *)
      if a <? 0 then b                       (* inside the boundary *)
      else math.Sqrt ((a * a) + (b * b))     (* outside the boundary *)
    else
      (* within the object Z extent *)
      if a <? 0 then math.Max a b            (* inside the boundary *)
      else a                                 (* outside the boundary *) in
  d - round s.

Definition BoundingBox (s : t) : d3.Box.t := bb s.
End ExtrudeRoundedSDF3.

#[export] Instance ExtrudeRoundedSDF3_SDF3 : SDF3Methods ExtrudeRoundedSDF3.t :=
  {| evaluate := ExtrudeRoundedSDF3.Evaluate;
     boundingBox := ExtrudeRoundedSDF3.BoundingBox |}.

(** Go's [errors.New]: like [ErrMsg], an error carrying its message. *)
Definition errors_New (msg : string) : result := (None, Some (ErrMsg msg)).

Section Extrude.

(** The extrude functions of the package, declared outside [sdf3.go]. *)
Variable NormalExtrude : ExtrudeFunc.
Variable TwistExtrude : float -> float -> ExtrudeFunc.
Variable ScaleExtrude : float -> r2.Vec -> ExtrudeFunc.
Variable ScaleTwistExtrude : float -> float -> r2.Vec -> ExtrudeFunc.

Definition Extrude3D (sdf : SDF2) (height : float) : SDF3 :=
  let s_height := height / 2 in
  let bb := BoundingBox2 sdf in
  ref (ExtrudeSDF3.mk sdf s_height NormalExtrude
         (d3.Box.mk
            (r3.mkVec (r2.X (d2.Box.Min bb)) (r2.Y (d2.Box.Min bb)) (- s_height))
            (r3.mkVec (r2.X (d2.Box.Max bb)) (r2.Y (d2.Box.Max bb)) s_height))).

Definition TwistExtrude3D (sdf : SDF2) (height twist : float) : SDF3 :=
  let s_height := height / 2 in
  let bb := BoundingBox2 sdf in
  let l := r2.Norm (d2.Box.Max bb) in
  ref (ExtrudeSDF3.mk sdf s_height (TwistExtrude height twist)
         (d3.Box.mk (r3.mkVec (- l) (- l) (- s_height))
                    (r3.mkVec l l s_height))).

Definition ScaleExtrude3D (sdf : SDF2) (height : float) (scale : r2.Vec) : SDF3 :=
  let s_height := height / 2 in
  let bb := BoundingBox2 sdf in
  let bb := d2.Box.Extend bb
              (d2.Box.mk (d2.MulElem (d2.Box.Min bb) scale)
                         (d2.MulElem (d2.Box.Max bb) scale)) in
  ref (ExtrudeSDF3.mk sdf s_height (ScaleExtrude height scale)
         (d3.Box.mk
            (r3.mkVec (r2.X (d2.Box.Min bb)) (r2.Y (d2.Box.Min bb)) (- s_height))
            (r3.mkVec (r2.X (d2.Box.Max bb)) (r2.Y (d2.Box.Max bb)) s_height))).

Definition ScaleTwistExtrude3D (sdf : SDF2) (height twist : float)
    (scale : r2.Vec) : SDF3 :=
  let s_height := height / 2 in
  let bb := BoundingBox2 sdf in
  let bb := d2.Box.Extend bb
              (d2.Box.mk (d2.MulElem (d2.Box.Min bb) scale)
                         (d2.MulElem (d2.Box.Max bb) scale)) in
  let l := r2.Norm (d2.Box.Max bb) in
  ref (ExtrudeSDF3.mk sdf s_height (ScaleTwistExtrude height twist scale)
         (d3.Box.mk (r3.mkVec (- l) (- l) (- s_height))
                    (r3.mkVec l l s_height))).

(** The struct [ExtrudeRounded3D] fills in once its guards have passed. *)
Definition newExtrudeRoundedSDF3 (sdf : SDF2) (height round : float) :
    ExtrudeRoundedSDF3.t :=
  let s_height := (height / 2) - round in
  let bb := BoundingBox2 sdf in
  ExtrudeRoundedSDF3.mk sdf s_height round
    (d3.Box.mk
       (r3.Sub (r3.mkVec (r2.X (d2.Box.Min bb)) (r2.Y (d2.Box.Min bb))
                         (- s_height))
               (d3.Elem round))
       (r3.Add (r3.mkVec (r2.X (d2.Box.Max bb)) (r2.Y (d2.Box.Max bb))
                         s_height)
               (d3.Elem round))).

(** [ExtrudeRounded3D] tests [round == 0] before [sdf == nil], and the
    non-rounded constructor calls [sdf.BoundingBox()] at once: with a nil
    profile and [round == 0] the call panics, which is the outer [None]. *)
Definition ExtrudeRounded3D (sdf : option SDF2) (height round : float) :
    option result :=
  if round =? 0 then
    (* revert to non-rounded case *)
    match sdf with
    | Some sdf => Some (ok (Extrude3D sdf height))
    | None => None
    end
  else
    Some
      match sdf with
      | None => errors_New "sdf == nil"
      | Some sdf =>
          if height <=? 0 then errors_New "height <= 0"
          else if round <? 0 then errors_New "round < 0"
          else if height <? 2 * round then errors_New "height < 2 * round"
          else ok (ref (newExtrudeRoundedSDF3 sdf height round))
      end.

End Extrude.

(** ** More of [sdf3.go]: loft *)

Module LoftSDF3.
Record t : Type := mk {
  sdf0 : SDF2;
  sdf1 : SDF2;
  height : float;
  round : float;
  bb : d3.Box.t
}.

Section Evaluate.
(** [Clamp] and [Mix], the scalar helpers of the package, declared outside
    [sdf3.go]. *)
Variable Clamp : float -> float -> float -> float.
Variable Mix : float -> float -> float -> float.

Definition Evaluate (s : t) (p : r3.Vec) : float :=
  (* work out the mix value as a function of height *)
  let k := Clamp ((0.5 * r3.Z p / height s) + 0.5) 0 1 in
  (* mix the 2D SDFs *)
  let a0 := Evaluate2 (sdf0 s) (r2.mkVec (r3.X p) (r3.Y p)) in
  let a1 := Evaluate2 (sdf1 s) (r2.mkVec (r3.X p) (r3.Y p)) in
  let a := Mix a0 a1 k in
  let b := math.Abs (r3.Z p) - height s in
  let d :=
    if 0 <? b then
      if a <? 0 then b
      else math.Sqrt ((a * a) + (b * b))
    else
      if a <? 0 then math.Max a b
      else a in
  d - round s.
End Evaluate.

Definition BoundingBox (s : t) : d3.Box.t := bb s.
End LoftSDF3.

Section Loft.
Variable Clamp : float -> float -> float -> float.
Variable Mix : float -> float -> float -> float.

Definition LoftSDF3_SDF3 : SDF3Methods LoftSDF3.t :=
  {| evaluate := LoftSDF3.Evaluate Clamp Mix;
     boundingBox := LoftSDF3.BoundingBox |}.

(** The struct [Loft3D] fills in once its guards have passed. *)
Definition newLoftSDF3 (sdf0 sdf1 : SDF2) (height round : float) : LoftSDF3.t :=
  let s_height := (height / 2) - round in
  let bb0 := BoundingBox2 sdf0 in
  let bb1 := BoundingBox2 sdf1 in
  let bb := d2.Box.Extend bb0 bb1 in
  LoftSDF3.mk sdf0 sdf1 s_height round
    (d3.Box.mk
       (r3.Sub (r3.mkVec (r2.X (d2.Box.Min bb)) (r2.Y (d2.Box.Min bb))
                         (- s_height))
               (d3.Elem round))
       (r3.Add (r3.mkVec (r2.X (d2.Box.Max bb)) (r2.Y (d2.Box.Max bb))
                         s_height)
               (d3.Elem round))).

Definition Loft3D (sdf0 sdf1 : option SDF2) (height round : float) : result :=
  match sdf0 with
  | None => errors_New "sdf0 == nil"
  | Some sdf0 =>
      match sdf1 with
      | None => errors_New "sdf1 == nil"
      | Some sdf1 =>
          if height <=? 0 then errors_New "height <= 0"
          else if round <? 0 then errors_New "round < 0"
          else if height <? 2 * round then errors_New "height < 2 * round"
          else ok (@ref _ LoftSDF3_SDF3 (newLoftSDF3 sdf0 sdf1 height round))
      end
  end.

End Loft.

(** ** More of [sdf3.go]: arrays *)

(** Go's conversion [float64(j)] of an [int]; the loop counters below are
    non-negative and below [2^63]. *)
Definition float64_of_int (j : Z) : float :=
  if (j <? 0)%Z then - of_uint63 (Uint63.of_Z (- j))
  else of_uint63 (Uint63.of_Z j).

(** [math.MaxFloat64]. *)
Definition MaxFloat64 : float := 0x1.fffffffffffffp+1023.

Module V3i.
(** Modelled from the spec: [V3i], the three counts [(nx, ny, nz)] of an
    array, a [[3]int] declared outside [sdf3.go]. *)
Record t : Set := mk { i0 : Z; i1 : Z; i2 : Z }.

(** Modelled from the spec: [SubScalar], the triple with [b] subtracted from
    every count (declared outside [sdf3.go]); the source calls it on counts
    [> 0] with [b = 1], where [int] subtraction does not wrap. *)
Definition SubScalar (a : t) (b : Z) : t :=
  mk (i0 a - b) (i1 a - b) (i2 a - b).

(** Modelled from the spec: [ToV3], the counts as a float vector (declared
    outside [sdf3.go]). *)
Definition ToV3 (a : t) : r3.Vec :=
  r3.mkVec (float64_of_int (i0 a)) (float64_of_int (i1 a))
           (float64_of_int (i2 a)).
End V3i.

(** The values [0, 1, ..., n-1] a loop [for j := 0; j < n; j++] visits. *)
Definition loopRange (n : Z) : list Z := map Z.of_nat (seq 0 (Z.to_nat n)).

Module ArraySDF3.
Record t : Type := mk {
  sdf : SDF3;
  num : V3i.t;
  step : r3.Vec;
  min : MinFunc;
  bb : d3.Box.t
}.

Definition SetMin (s : t) (min : MinFunc) : t :=
  mk (sdf s) (num s) (step s) min (bb s).

Definition Evaluate (s : t) (p : r3.Vec) : float :=
  fold_left (fun d j =>
    fold_left (fun d k =>
      fold_left (fun d l =>
        let x := r3.Sub p (r3.mkVec (float64_of_int j * r3.X (step s))
                                    (float64_of_int k * r3.Y (step s))
                                    (float64_of_int l * r3.Z (step s))) in
        min s d (Evaluate (sdf s) x))
        (loopRange (V3i.i2 (num s))) d)
      (loopRange (V3i.i1 (num s))) d)
    (loopRange (V3i.i0 (num s))) MaxFloat64.

Definition BoundingBox (s : t) : d3.Box.t := bb s.
End ArraySDF3.

#[export] Instance ArraySDF3_SDF3 : SDF3Methods ArraySDF3.t :=
  {| evaluate := ArraySDF3.Evaluate; boundingBox := ArraySDF3.BoundingBox |}.

Definition Array3D (sdf : SDF3) (num : V3i.t) (step : r3.Vec) : option SDF3 :=
  (* check the number of steps *)
  if (V3i.i0 num <=? 0)%Z || (V3i.i1 num <=? 0)%Z || (V3i.i2 num <=? 0)%Z
  then None
  else
    let bb0 := BoundingBox sdf in
    let bb1 := d3.Box.Translate bb0
                 (d3.MulElem step (V3i.ToV3 (V3i.SubScalar num 1))) in
    Some (ref (ArraySDF3.mk sdf num step math.Min (d3.Box.Extend bb0 bb1))).

(** The translations the three nested loops of [ArraySDF3.Evaluate] visit,
    in loop order. *)
Definition arrayOffsets (num : V3i.t) (step : r3.Vec) : list r3.Vec :=
  flat_map (fun j =>
    flat_map (fun k =>
      map (fun l => r3.mkVec (float64_of_int j * r3.X step)
                             (float64_of_int k * r3.Y step)
                             (float64_of_int l * r3.Z step))
          (loopRange (V3i.i2 num)))
      (loopRange (V3i.i1 num)))
    (loopRange (V3i.i0 num)).

(** ** More of [sdf3.go]: offset and shell *)

Module OffsetSDF3.
Record t : Type := mk {
  sdf : SDF3;      (* the underlying SDF *)
  offset : float;  (* the distance the SDF is offset by *)
  bb : d3.Box.t    (* bounding box *)
}.

Definition Evaluate (s : t) (p : r3.Vec) : float :=
  Evaluate (sdf s) p - offset s.

Definition BoundingBox (s : t) : d3.Box.t := bb s.
End OffsetSDF3.

#[export] Instance OffsetSDF3_SDF3 : SDF3Methods OffsetSDF3.t :=
  {| evaluate := OffsetSDF3.Evaluate; boundingBox := OffsetSDF3.BoundingBox |}.

Module ShellSDF3.
Record t : Type := mk {
  sdf : SDF3;     (* parent sdf3 *)
  delta : float;  (* half shell thickness *)
  bb : d3.Box.t   (* bounding box *)
}.

Definition Evaluate (s : t) (p : r3.Vec) : float :=
  math.Abs (Evaluate (sdf s) p) - delta s.

Definition BoundingBox (s : t) : d3.Box.t := bb s.
End ShellSDF3.

#[export] Instance ShellSDF3_SDF3 : SDF3Methods ShellSDF3.t :=
  {| evaluate := ShellSDF3.Evaluate; boundingBox := ShellSDF3.BoundingBox |}.

Section BoxHelpers.

(** The box helpers of [internal/d3] that only the bounding boxes of
    [Offset3D] and [Shell3D] use. *)
Variable NewBox : r3.Vec -> r3.Vec -> d3.Box.t.
Variable Center : d3.Box.t -> r3.Vec.
Variable Size : d3.Box.t -> r3.Vec.
Variable Enlarge : d3.Box.t -> r3.Vec -> d3.Box.t.

Definition Offset3D (sdf : SDF3) (offset : float) : SDF3 :=
  let bb := BoundingBox sdf in
  ref (OffsetSDF3.mk sdf offset
         (NewBox (Center bb) (r3.Add (Size bb) (d3.Elem (2 * offset))))).

Definition Shell3D (sdf : SDF3) (thickness : float) : result :=
  if thickness <=? 0 then fail "thickness <= 0"
  else
    ok (ref (ShellSDF3.mk sdf (0.5 * thickness)
               (Enlarge (BoundingBox sdf)
                        (r3.mkVec thickness thickness thickness)))).

End BoxHelpers.

(** ** More of [sdf3.go]: unions of placed copies *)

Section Placed.
Context {m44 : Type} `{M44Ops m44}.

(** [Translate3d] and [rotateToVec], the matrix constructors of the package,
    declared outside [sdf3.go]. *)
Variable Translate3d : r3.Vec -> m44.
Variable rotateToVec : r3.Vec -> r3.Vec -> m44.

Definition Multi3D (s : option SDF3) (positions : list r3.Vec) : option SDF3 :=
  match s, positions with
  | None, _ | _, [] => None
  | Some s, _ :: _ =>
      let objects := map (fun p => Some (Transform3D s (Translate3d p)))
                         positions in
      Union3D objects
  end.

Definition Orient3D (s : option SDF3) (base : r3.Vec)
    (directions : list r3.Vec) : option SDF3 :=
  match s, directions with
  | None, _ | _, [] => None
  | Some s, _ :: _ =>
      let objects := map (fun d => Some (Transform3D s (rotateToVec base d)))
                         directions in
      Union3D objects
  end.

End Placed.

(** The non-nil arguments of a variadic call, in order. *)
Definition nonNils (sdf : list (option SDF3)) : list SDF3 :=
  flat_map (fun x => match x with Some y => [y] | None => [] end) sdf.

(** ** More of [sdf3.go]: rotational union *)

(** Modelled from the spec: [d3.Set.Min], the elementwise minimum of a
    vertex set ([internal/d3] is missing); the source calls it on the 8
    corners of a box. *)
Definition d3_SetMin (a : list r3.Vec) : r3.Vec :=
  fold_left d3.MinElem a (hd (r3.mkVec 0 0 0) a).

(** Modelled from the spec: [d3.Set.Max], the elementwise maximum of a
    vertex set ([internal/d3] is missing). *)
Definition d3_SetMax (a : list r3.Vec) : r3.Vec :=
  fold_left d3.MaxElem a (hd (r3.mkVec 0 0 0) a).

Module RotateUnionSDF3.
Record t (m44 : Type) : Type := mk {
  sdf : SDF3;
  num : Z;
  step : m44;
  min : MinFunc;
  bb : d3.Box.t
}.

Section Evaluate.
Context {m44 : Type} `{M44Ops m44}.

(** [Identity3d] and the matrix product, declared outside [sdf3.go]. *)
Variable Identity3d : m44.
Variable Mul : m44 -> m44 -> m44.

(** The loop carries the blended distance [d] and the accumulated rotation
    [rot]. *)
Definition Evaluate (s : t m44) (p : r3.Vec) : float :=
  fst (fold_left
         (fun (acc : float * m44) (_ : Z) =>
            let '(d, rot) := acc in
            let x := MulPosition rot p in
            (min s d (Evaluate (sdf s) x), Mul rot (step s)))
         (loopRange (num s)) (MaxFloat64, Identity3d)).
End Evaluate.

Definition SetMin {m44 : Type} (s : t m44) (min : MinFunc) : t m44 :=
  mk (sdf s) (num s) (step s) min (bb s).

Definition BoundingBox {m44 : Type} (s : t m44) : d3.Box.t := bb s.
End RotateUnionSDF3.

Section RotateUnion.
Context {m44 : Type} `{M44Ops m44}.
Variable Identity3d : m44.
Variable Mul : m44 -> m44 -> m44.

(** Modelled from the spec: [mulVertices3], which moves every vertex of the
    set through the matrix (declared outside [sdf3.go]; in Go it overwrites
    the slice, here it returns the new set). *)
Definition mulVertices3 (v : list r3.Vec) (a : m44) : list r3.Vec :=
  map (MulPosition a) v.

Definition RotateUnionSDF3_SDF3 : SDF3Methods (RotateUnionSDF3.t m44) :=
  {| evaluate := RotateUnionSDF3.Evaluate Identity3d Mul;
     boundingBox := @RotateUnionSDF3.BoundingBox m44 |}.

Definition RotateUnion3D (sdf : SDF3) (num : Z) (step : m44) : option SDF3 :=
  (* check the number of steps *)
  if (num <=? 0)%Z then None
  else
    let v := d3.Box.Vertices (BoundingBox sdf) in
    let v0 := hd (r3.mkVec 0 0 0) v in
    let '(bbMin, bbMax, _) :=
      fold_left
        (fun (acc : r3.Vec * r3.Vec * list r3.Vec) (_ : Z) =>
           let '(bbMin, bbMax, v) := acc in
           (d3.MinElem bbMin (d3_SetMin v), d3.MaxElem bbMax (d3_SetMax v),
            mulVertices3 v step))
        (loopRange num) (v0, v0, v) in
    Some (@ref _ RotateUnionSDF3_SDF3
            (RotateUnionSDF3.mk sdf num (Inverse step) math.Min
                                (d3.Box.mk bbMin bbMax))).

(** The rotations the loop of [RotateUnionSDF3.Evaluate] applies: [rot],
    [rot * step], [(rot * step) * step], ..., [n] of them. *)
Fixpoint rotationsFrom (rot step : m44) (n : nat) : list m44 :=
  match n with
  | O => []
  | S n => rot :: rotationsFrom (Mul rot step) step n
  end.

End RotateUnion.

(** Modelled from the spec: the "composition" of two 4x4 transforms, the
    matrix product [a * b] (the matrix file is missing). *)
Definition m44_Mul (a b : m44.t) : m44.t :=
  let e (i j : nat) : float :=
    m44.get a i 0 * m44.get b 0 j + m44.get a i 1 * m44.get b 1 j
    + m44.get a i 2 * m44.get b 2 j + m44.get a i 3 * m44.get b 3 j in
  let i0 := 0%nat in
  let i1 := 1%nat in
  let i2 := 2%nat in
  let i3 := 3%nat in
  m44.mk (e i0 i0) (e i0 i1) (e i0 i2) (e i0 i3)
         (e i1 i0) (e i1 i1) (e i1 i2) (e i1 i3)
         (e i2 i0) (e i2 i1) (e i2 i2) (e i2 i3)
         (e i3 i0) (e i3 i1) (e i3 i2) (e i3 i3).

(** ** More sample values *)

(** The balls of radius 1 and 2 about the origin, as [Sphere3D] builds
    them. *)
Definition unitBall : SDF3 :=
  ref (SphereSDF3.mk 1 (d3.Box.mk (r3.mkVec (-1) (-1) (-1)) (r3.mkVec 1 1 1))).

Definition bigBall : SDF3 :=
  ref (SphereSDF3.mk 2 (d3.Box.mk (r3.mkVec (-2) (-2) (-2)) (r3.mkVec 2 2 2))).

(** * Facts about binary64 arithmetic

    Each is read off the specification of the primitive operations
    ([Prim2SF] and the [SF] functions of the standard library). *)

Section FloatFacts.

Lemma SFcompare_refl_not_nan (s : spec_float) :
  s <> S754_nan -> SFcompare s s = Some Eq.
Proof.
  destruct s as [z | i | | sg m e]; simpl; intros Hn; try congruence.
  - destruct i; reflexivity.
  - destruct sg; rewrite Z.compare_refl, Pos.compare_cont_refl; reflexivity.
Qed.

Lemma is_nan_eq (x : float) : is_nan x = true -> x = nan.
Proof.
  unfold is_nan. rewrite FloatAxioms.eqb_spec. unfold SFeqb. intros H.
  apply Prim2SF_inj.
  destruct (Prim2SF x) eqn:E; try reflexivity;
    rewrite SFcompare_refl_not_nan in H by discriminate; discriminate.
Qed.

Lemma abs_opp (x : float) : abs (- x) = abs x.
Proof.
  apply Prim2SF_inj. rewrite !FloatAxioms.abs_spec, FloatAxioms.opp_spec.
  destruct (Prim2SF x); reflexivity.
Qed.

Lemma mul_comm (x y : float) : x * y = y * x.
Proof.
  apply Prim2SF_inj. rewrite !FloatAxioms.mul_spec. unfold SF64mul.
  destruct (Prim2SF x) as [sx | sx | | sx mx ex],
           (Prim2SF y) as [sy | sy | | sy my ey];
    simpl; try reflexivity; try (rewrite xorb_comm; reflexivity).
  rewrite xorb_comm, Pos.mul_comm, Z.add_comm. reflexivity.
Qed.

Lemma SFcompare_antisym (a b : spec_float) :
  SFcompare b a = option_map CompOpp (SFcompare a b).
Proof.
  destruct a as [sa | sa | | sa ma ea], b as [sb | sb | | sb mb eb];
    simpl; try reflexivity;
    try (destruct sa; reflexivity); try (destruct sb; reflexivity);
    try (destruct sa, sb; reflexivity).
  destruct sa, sb; simpl; try reflexivity;
    rewrite (Z.compare_antisym ea eb);
    destruct (ea ?= eb)%Z; simpl; try reflexivity;
    try rewrite CompOpp_involutive;
    rewrite Pos.compare_cont_antisym; reflexivity.
Qed.

Lemma ltb_leb_false (x y : float) : (x <? y) = true -> (y <=? x) = false.
Proof.
  rewrite FloatAxioms.ltb_spec, FloatAxioms.leb_spec. unfold SFltb, SFleb.
  rewrite (SFcompare_antisym (Prim2SF x) (Prim2SF y)).
  destruct (SFcompare (Prim2SF x) (Prim2SF y)) as [[] |]; simpl; congruence.
Qed.

Lemma leb_ltb_false (x y : float) : (x <=? y) = true -> (y <? x) = false.
Proof.
  rewrite FloatAxioms.ltb_spec, FloatAxioms.leb_spec. unfold SFltb, SFleb.
  rewrite (SFcompare_antisym (Prim2SF x) (Prim2SF y)).
  destruct (SFcompare (Prim2SF x) (Prim2SF y)) as [[] |]; simpl; congruence.
Qed.

End FloatFacts.

(** * Shared lemmas about the embedding *)

Lemma Max_idem (a : float) : math.Max a a = a.
Proof.
  unfold math.Max, math.IsInfPos, math.IsNaN, math.NaN.
  destruct (Leibniz.eqb a infinity) eqn:Ei.
  - apply FloatAxioms.Leibniz.eqb_spec in Ei. simpl. congruence.
  - simpl. destruct (is_nan a) eqn:En.
    + simpl. symmetry. apply is_nan_eq. exact En.
    + simpl. destruct ((a =? 0) && (a =? a)).
      * destruct (math.Signbit a); reflexivity.
      * destruct (a <? a); reflexivity.
Qed.

Lemma AbsElem_opp (h : r3.Vec) :
  d3.AbsElem (r3.mkVec (- r3.X h) (- r3.Y h) (- r3.Z h)) = d3.AbsElem h.
Proof.
  unfold d3.AbsElem, math.Abs. simpl. rewrite !abs_opp. reflexivity.
Qed.

Lemma failed_fail (msg : string) : failed (fail msg).
Proof. split; [reflexivity | exists msg; reflexivity]. Qed.

(** Two floats that a boolean test tells apart are different. *)
Lemma float_neq (x y : float) : Leibniz.eqb x y = false -> x <> y.
Proof.
  intros H E. apply FloatAxioms.Leibniz.eqb_spec in E. congruence.
Qed.

Create HintDb sdf.
#[local] Hint Resolve failed_fail : sdf.

(** * Uniform scaling *)

Lemma ScaleUniform3D_Evaluate (m44 : Type) `{M44Ops m44}
    (sdf : SDF3) (k : float) (p : r3.Vec) :
  Evaluate (ScaleUniform3D m44 sdf k) p
  = Evaluate sdf (r3.Scale (1 / k) p) * k.
Proof. reflexivity. Qed.

(** C1, as the code has it: for every [sdf], every [k] and every point [p],
    [ScaleUniform3D(sdf, k).Evaluate(p)] is [k * sdf.Evaluate(invK * p)],
    where [invK] is the rounded reciprocal [1/k] the constructor stores; it
    is [k * sdf.Evaluate(p / k)] whenever multiplying [p] by [invK] gives the
    componentwise quotient [p / k]. *)
Theorem C1_ScaleUniform3D_Evaluate (m44 : Type) `{M44Ops m44}
    (sdf : SDF3) (k : float) (p : r3.Vec) :
  Evaluate (ScaleUniform3D m44 sdf k) p
  = k * Evaluate sdf (r3.Scale (1 / k) p)
  /\ (r3.Scale (1 / k) p = r3.mkVec (r3.X p / k) (r3.Y p / k) (r3.Z p / k) ->
      Evaluate (ScaleUniform3D m44 sdf k) p
      = k * Evaluate sdf (r3.mkVec (r3.X p / k) (r3.Y p / k) (r3.Z p / k))).
Proof.
  rewrite ScaleUniform3D_Evaluate, mul_comm. split.
  - reflexivity.
  - intros ->. reflexivity.
Qed.

(** C1 at [k = 2] and [p = (5, 7, -3)], where [invK * p] is [p / k]
    componentwise. *)
Lemma C1_ScaleUniform3D_Evaluate_witness :
  Evaluate (ScaleUniform3D m44.t planeX 2) (r3.mkVec 5 7 (-3))
  = 2 * Evaluate planeX (r3.mkVec (5 / 2) (7 / 2) (-3 / 2)).
Proof.
  apply (@C1_ScaleUniform3D_Evaluate m44.t _ planeX 2 (r3.mkVec 5 7 (-3))).
  vm_compute. reflexivity.
Defined.

(** C1 as stated fails: at [k = 3] and [p = (5,0,0)] the code evaluates the
    child at [5 * (1/3) = 1.6666666666666665], not at
    [5 / 3 = 1.6666666666666667]; for the unit sphere, and likewise for the
    box of half extent 1, it returns [1.9999999999999996], while
    [3 * sdf.Evaluate(p / 3)] is [2]. *)
Lemma C1_counterexample :
  let p := r3.mkVec 5 0 0 in
  let q := r3.mkVec (5 / 3) (0 / 3) (0 / 3) in
  (0 <? 3) = true
  /\ 5 * (1 / 3) = 0x1.aaaaaaaaaaaaap+0
  /\ 5 / 3 = 0x1.aaaaaaaaaaaabp+0
  /\ (exists sdf : SDF3,
         Sphere3D 1 = ok sdf
         /\ Evaluate (ScaleUniform3D m44.t sdf 3) p = 0x1.ffffffffffffep+0
         /\ 3 * Evaluate sdf q = 2
         /\ Evaluate (ScaleUniform3D m44.t sdf 3) p <> 3 * Evaluate sdf q)
  /\ (exists sdf : SDF3,
         Box3D (r3.mkVec 2 2 2) 0 = ok sdf
         /\ Evaluate (ScaleUniform3D m44.t sdf 3) p = 0x1.ffffffffffffep+0
         /\ 3 * Evaluate sdf q = 2
         /\ Evaluate (ScaleUniform3D m44.t sdf 3) p <> 3 * Evaluate sdf q).
Proof.
  intros p q.
  split; [reflexivity |].
  split; [vm_compute; reflexivity |].
  split; [vm_compute; reflexivity |].
  split; eexists; (split; [reflexivity |]);
    (split; [vm_compute; reflexivity |]);
    (split; [vm_compute; reflexivity |]);
    apply float_neq; vm_compute; reflexivity.
Qed.

(** * Parameter validation of the primitive constructors *)

(** Walks down the chain of guards of a constructor: every guard that fires
    returns [fail _], and a guard that does not fire contradicts the
    assumption that it does. *)
Ltac settle_guards :=
  repeat match goal with
         | |- failed (if ?c then _ else _) => destruct c eqn:?
         | |- failed (let _ := _ in _) => cbv zeta
         end;
  first [ solve [auto with sdf] | exfalso; intuition congruence ].

Lemma Box3D_guards (size : r3.Vec) (round : float) :
  d3.LTEZero size = true \/ (round <? 0) = true ->
  failed (Box3D size round).
Proof. intros H. unfold Box3D. settle_guards. Qed.

Lemma Sphere3D_guards (radius : float) :
  (radius <=? 0) = true -> failed (Sphere3D radius).
Proof. intros H. unfold Sphere3D. settle_guards. Qed.

Lemma Cylinder3D_guards (sdfBox2d : r2.Vec -> r2.Vec -> float)
    (height radius round : float) :
  (radius <=? 0) = true \/ (round <? 0) = true
  \/ (radius <? round) = true \/ (height <? 2 * round) = true ->
  failed (Cylinder3D sdfBox2d height radius round).
Proof. intros H. unfold Cylinder3D. settle_guards. Qed.

Lemma Cone3D_guards (height r0 r1 round : float) :
  (height <=? 0) = true \/ (round <? 0) = true
  \/ (height <? 2 * round) = true ->
  failed (Cone3D height r0 r1 round).
Proof. intros H. unfold Cone3D. settle_guards. Qed.

(** C2, as the code has it: [Box3D] fails, returning no SDF3, whenever some
    component of [size] is [<= 0] or [round < 0]; [Sphere3D] whenever
    [radius <= 0]; [Cylinder3D] whenever [radius <= 0], [round < 0],
    [round > radius] or [height < 2*round]; [Cone3D] whenever [height <= 0],
    [round < 0] or [height < 2*round].  [Cone3D] does not validate its two
    radii. *)
Theorem C2_constructor_guards :
  (forall size round,
      d3.LTEZero size = true \/ (round <? 0) = true ->
      failed (Box3D size round))
  /\ (forall radius, (radius <=? 0) = true -> failed (Sphere3D radius))
  /\ (forall sdfBox2d height radius round,
         (radius <=? 0) = true \/ (round <? 0) = true
         \/ (radius <? round) = true \/ (height <? 2 * round) = true ->
         failed (Cylinder3D sdfBox2d height radius round))
  /\ (forall height r0 r1 round,
         (height <=? 0) = true \/ (round <? 0) = true
         \/ (height <? 2 * round) = true ->
         failed (Cone3D height r0 r1 round)).
Proof.
  split; [exact Box3D_guards |].
  split; [exact Sphere3D_guards |].
  split; [exact Cylinder3D_guards | exact Cone3D_guards].
Qed.

(** C2 at one rejected input per constructor: a box with a zero side, a
    sphere of radius zero, a cylinder with [round = 2 > radius = 1], a cone
    with [height = 1 < 2*round = 2]. *)
Lemma C2_constructor_guards_witness :
  failed (Box3D (r3.mkVec 0 1 1) 0)
  /\ failed (Sphere3D 0)
  /\ (forall sdfBox2d, failed (Cylinder3D sdfBox2d 4 1 2))
  /\ failed (Cone3D 1 1 1 1).
Proof.
  destruct C2_constructor_guards as (HB & HS & HCy & HCo).
  split; [apply HB; left; reflexivity |].
  split; [apply HS; reflexivity |].
  split; [intros f; apply HCy; right; right; left; reflexivity |].
  apply HCo. right; right. reflexivity.
Defined.

(** C2 as stated fails: [Cone3D(2, 1, 0, 0)], the pointed cone with top
    radius [r1 = 0], has a radius parameter [<= 0] and is accepted. *)
Lemma C2_counterexample :
  (0 <=? 0) = true
  /\ (exists s : SDF3, Cone3D 2 1 0 0 = ok s)
  /\ ~ failed (Cone3D 2 1 0 0).
Proof.
  split; [reflexivity |].
  split.
  - eexists. reflexivity.
  - intros [H _]. vm_compute in H. discriminate H.
Qed.

(** [Box3D] does not compare [round] with the half extents either:
    [Box3D({2,2,2}, 5)] is accepted, with a core of half extent [1 - 5]. *)
Example Box3D_accepts_large_round :
  (1 <? 5) = true /\ exists s : SDF3, Box3D (r3.mkVec 2 2 2) 5 = ok s.
Proof. split; [reflexivity | eexists; reflexivity]. Qed.

(** * Union *)

(** C3: [Union3D()] with no argument returns nil, and [Union3D(A)] with one
    argument returns [A] itself, not a union node: same [Evaluate] at every
    point and same [BoundingBox]. *)
Theorem C3_Union3D_zero_one :
  Union3D [] = None
  /\ (forall A : option SDF3, Union3D [A] = A)
  /\ (forall a : SDF3,
         exists u : SDF3,
           Union3D [Some a] = Some u
           /\ (forall p, Evaluate u p = Evaluate a p)
           /\ BoundingBox u = BoundingBox a).
Proof.
  split; [reflexivity |]. split.
  - intros [a |]; reflexivity.
  - intros a. exists a. repeat split; reflexivity.
Qed.

(** * Difference *)

(** C4: [Difference3D(A, nil)] is [A] itself; [Difference3D(nil, B)] is nil;
    for non-nil [A] and [B] the result evaluates at every point [p] to
    [math.Max(A.Evaluate(p), -B.Evaluate(p))], [math.Max] being the blend
    function the constructor installs. *)
Theorem C4_Difference3D :
  (forall A : option SDF3, Difference3D A None = A)
  /\ (forall B : option SDF3, Difference3D None B = None)
  /\ (forall a b : SDF3,
         exists d : SDF3,
           Difference3D (Some a) (Some b) = Some d
           /\ forall p,
               Evaluate d p = math.Max (Evaluate a p) (- Evaluate b p)).
Proof.
  split; [reflexivity |]. split.
  - intros [b |]; reflexivity.
  - intros a b. eexists. split; reflexivity.
Qed.

(** * Box *)

(** C6: the box [Box3D({2,2,2}, 0)] evaluates to [-1] at the origin, to [0]
    at [(1,0,0)] and to [1] at [(2,0,0)]. *)
Theorem C6_Box3D_scenario :
  exists s : SDF3,
    Box3D (r3.mkVec 2 2 2) 0 = ok s
    /\ Evaluate s (r3.mkVec 0 0 0) = -1
    /\ Evaluate s (r3.mkVec 1 0 0) = 0
    /\ Evaluate s (r3.mkVec 2 0 0) = 1.
Proof.
  eexists. split; [reflexivity |].
  repeat split; vm_compute; reflexivity.
Qed.

(** * Sphere *)

(** C7: for every radius [r > 0], [Sphere3D(r)] returns a sphere whose
    [Evaluate(p)] is the norm of [p] minus [r] at every point [p]; and
    [Sphere3D(1).Evaluate({3,4,0})] is [4]. *)
Theorem C7_Sphere3D_Evaluate :
  (forall r : float,
      (0 <? r) = true ->
      exists s : SDF3,
        Sphere3D r = ok s
        /\ forall p, Evaluate s p = r3.Norm p - r)
  /\ (exists s : SDF3,
         Sphere3D 1 = ok s /\ Evaluate s (r3.mkVec 3 4 0) = 4).
Proof.
  split.
  - intros r Hr. unfold Sphere3D.
    rewrite (ltb_leb_false Hr).
    eexists. split; reflexivity.
  - eexists. split; [reflexivity | vm_compute; reflexivity].
Qed.

(** C7 at [r = 2] and [p = (3,4,0)]: the distance is [5 - 2]. *)
Lemma C7_Sphere3D_Evaluate_witness :
  exists s : SDF3,
    Sphere3D 2 = ok s /\ Evaluate s (r3.mkVec 3 4 0) = 3.
Proof.
  destruct (proj1 C7_Sphere3D_Evaluate 2 eq_refl) as (s & Hs & He).
  exists s. split; [exact Hs |].
  rewrite He. vm_compute. reflexivity.
Defined.

(** * Solid of revolution *)

Lemma RevolveTheta3D_accepts (Mod : float -> float -> float)
    (Sin Cos : float -> float) (profile : SDF2) (theta : float) :
  (theta <? 0) = false ->
  RevolveTheta3D Mod Sin Cos (Some profile) theta
  = ok (ref (newSorSDF3 Mod Sin Cos profile theta)).
Proof. intros H. unfold RevolveTheta3D. rewrite H. reflexivity. Qed.

(** C8: [RevolveTheta3D] stores the angle normalized by [math.Mod(|theta|,
    tau)] and the normal [(-sin, cos)] to its boundary line; for every solid
    of revolution [s] and point [p = (x,y,z)], with [a] the profile evaluated
    at [(sqrt(x^2+y^2), z)] and [d] the projection of [(x,y)] on the normal:
    [Evaluate(p)] is [a] alone when [theta = 0], is
    [max(a, max(-y, d))] when [0 <> theta < pi], and is [max(a, min(-y, d))]
    when [theta >= pi]. *)
Theorem C8_SorSDF3_Evaluate :
  (forall Mod Sin Cos (profile : SDF2) (theta : float),
      (theta <? 0) = false ->
      exists s : SorSDF3.t,
        RevolveTheta3D Mod Sin Cos (Some profile) theta = ok (ref s)
        /\ SorSDF3.sdf s = profile
        /\ SorSDF3.theta s = Mod (math.Abs theta) tau
        /\ SorSDF3.norm s
           = r2.mkVec (- Sin (SorSDF3.theta s)) (Cos (SorSDF3.theta s)))
  /\ (forall (s : SorSDF3.t) (p : r3.Vec),
         let a := Evaluate2 (SorSDF3.sdf s)
                    (r2.mkVec (math.Sqrt (r3.X p * r3.X p + r3.Y p * r3.Y p))
                              (r3.Z p)) in
         let d := r2.Dot (SorSDF3.norm s) (r2.mkVec (r3.X p) (r3.Y p)) in
         ((SorSDF3.theta s =? 0) = true -> Evaluate (ref s) p = a)
         /\ ((SorSDF3.theta s =? 0) = false ->
             (SorSDF3.theta s <? pi) = true ->
             Evaluate (ref s) p = math.Max a (math.Max (- r3.Y p) d))
         /\ ((SorSDF3.theta s =? 0) = false ->
             (pi <=? SorSDF3.theta s) = true ->
             Evaluate (ref s) p = math.Max a (math.Min (- r3.Y p) d))).
Proof.
  split.
  - intros Mod Sin Cos profile theta Hth.
    exists (newSorSDF3 Mod Sin Cos profile theta).
    split; [apply RevolveTheta3D_accepts; exact Hth |].
    repeat split; reflexivity.
  - intros s p a d. cbn [ref Evaluate evaluate SorSDF3_SDF3].
    unfold SorSDF3.Evaluate. fold a. fold d.
    split; [| split].
    + intros H0. rewrite H0. cbn [negb]. apply Max_idem.
    + intros H0 Hlt. rewrite H0, Hlt. reflexivity.
    + intros H0 Hge. rewrite H0, (leb_ltb_false Hge). reflexivity.
Qed.

(** C8 on the unit disc at [p = (1, 1, 0)], where the profile gives
    [sqrt 2 - 1]: a full revolution ([theta = 0]); a quarter turn
    ([theta = pi/2], normal [(-1, cos(pi/2))]); three quarters of a turn
    ([theta = 3*pi/2], normal [(1, cos(3*pi/2))]). *)
Lemma C8_SorSDF3_Evaluate_witness :
  let p := r3.mkVec 1 1 0 in
  let a := math.Sqrt 2 - 1 in
  Evaluate (ref (sorOf 0 (r2.mkVec (-0) 1))) p = a
  /\ Evaluate (ref (sorOf 0x1.921fb54442d18p+0
                         (r2.mkVec (-1) 0x1.1a62633145c07p-54))) p
     = math.Max a (math.Max (-1) (-1 + 0x1.1a62633145c07p-54))
  /\ Evaluate (ref (sorOf 0x1.2d97c7f3321d2p+2
                         (r2.mkVec 1 (- 0x1.a79394c9e8a0ap-53)))) p
     = math.Max a (math.Min (-1) (1 + - 0x1.a79394c9e8a0ap-53))
  /\ (forall Mod Sin Cos,
         exists s : SorSDF3.t,
           RevolveTheta3D Mod Sin Cos (Some unitDisc) 1 = ok (ref s)
           /\ SorSDF3.theta s = Mod 1 tau).
Proof.
  intros p a.
  destruct C8_SorSDF3_Evaluate as [Hc He].
  split; [| split; [| split]].
  - pose proof (He (sorOf 0 (r2.mkVec (-0) 1)) p) as H.
    cbv zeta in H. destruct H as (H & _ & _).
    rewrite H by reflexivity. vm_compute. reflexivity.
  - pose proof (He (sorOf 0x1.921fb54442d18p+0
                          (r2.mkVec (-1) 0x1.1a62633145c07p-54)) p) as H.
    cbv zeta in H. destruct H as (_ & H & _).
    rewrite H by reflexivity. vm_compute. reflexivity.
  - pose proof (He (sorOf 0x1.2d97c7f3321d2p+2
                          (r2.mkVec 1 (- 0x1.a79394c9e8a0ap-53))) p) as H.
    cbv zeta in H. destruct H as (_ & _ & H).
    rewrite H by reflexivity. vm_compute. reflexivity.
  - intros Mod Sin Cos.
    destruct (Hc Mod Sin Cos unitDisc 1 eq_refl) as (s & Hs & _ & Ht & _).
    exists s. split; [exact Hs | exact Ht].
Defined.

(** * Intersection and cut *)

(** C9: for non-nil [A] and [B], [Intersect3D(A, B).BoundingBox()] is
    [A.BoundingBox()], and [Cut3D(sdf, a, n).BoundingBox()] is
    [sdf.BoundingBox()]: both reuse the operand's box as it is. *)
Theorem C9_Intersect3D_Cut3D_BoundingBox :
  (forall a b : SDF3,
      exists s : SDF3,
        Intersect3D (Some a) (Some b) = Some s
        /\ BoundingBox s = BoundingBox a)
  /\ (forall (sdf : SDF3) (a n : r3.Vec),
         BoundingBox (Cut3D sdf a n) = BoundingBox sdf).
Proof.
  split.
  - intros a b. eexists. split; reflexivity.
  - intros sdf a n. reflexivity.
Qed.

(** The box is not tightened: cutting [planeX] (box [[-1,1]^3]) by the plane
    [x = 0], keeping the side [x >= 0], leaves the lower corner at [x = -1],
    where the cut solid has positive distance. *)
Example Cut3D_keeps_box :
  let c := Cut3D planeX (r3.mkVec 0 0 0) (r3.mkVec 1 0 0) in
  d3.Box.Min (BoundingBox c) = r3.mkVec (-1) (-1) (-1)
  /\ Evaluate c (r3.mkVec (-1) (-1) (-1)) = 1.
Proof. split; vm_compute; reflexivity. Qed.

(** * Elongation *)

Lemma Elongate3D_opp (sdf : SDF3) (h : r3.Vec) :
  Elongate3D sdf (r3.mkVec (- r3.X h) (- r3.Y h) (- r3.Z h))
  = Elongate3D sdf h.
Proof. unfold Elongate3D. rewrite AbsElem_opp. reflexivity. Qed.

(** C10: elongation ignores the sign of each component of its vector: for
    every [sdf], [h] and [p], [Elongate3D(sdf, h)] and [Elongate3D(sdf, -h)]
    evaluate to the same distance at [p] and have the same bounding box,
    because the constructor first replaces [h] by its componentwise absolute
    value, which is the same for [h] and [-h]. *)
Theorem C10_Elongate3D_sign (sdf : SDF3) (h p : r3.Vec) :
  let h' := r3.mkVec (- r3.X h) (- r3.Y h) (- r3.Z h) in
  Evaluate (Elongate3D sdf h) p = Evaluate (Elongate3D sdf h') p
  /\ BoundingBox (Elongate3D sdf h) = BoundingBox (Elongate3D sdf h')
  /\ d3.AbsElem h' = d3.AbsElem h.
Proof.
  intros h'. subst h'. rewrite Elongate3D_opp, AbsElem_opp.
  repeat split; reflexivity.
Qed.

(** * Transform *)

Lemma Transform3D_Evaluate (m44 : Type) `{M44Ops m44}
    (sdf : SDF3) (M : m44) (p : r3.Vec) :
  Evaluate (Transform3D sdf M) p = Evaluate sdf (MulPosition (Inverse M) p).
Proof. reflexivity. Qed.

Lemma Transform3D_BoundingBox (m44 : Type) `{M44Ops m44}
    (sdf : SDF3) (M : m44) :
  BoundingBox (Transform3D sdf M) = MulBox M (BoundingBox sdf).
Proof. reflexivity. Qed.

(** C5, as the code has it: for every [sdf] and matrix [M], with
    [Mi = M.Inverse()], the round trip
    [Transform3D(Transform3D(sdf, M), Mi)] evaluates at every [p] to
    [sdf.Evaluate(Mi * (Mi.Inverse() * p))], hence to [sdf.Evaluate(p)] at
    every [p] for which [Mi * (Mi.Inverse() * p)] is [p]; its bounding box is
    [Mi.MulBox(M.MulBox(sdf.BoundingBox()))], hence the original box whenever
    that double re-enclosure returns the original box.  The code applies
    [Mi.Inverse()], computed anew, not [M]. *)
Theorem C5_Transform3D_round_trip (m44 : Type) `{M44Ops m44}
    (sdf : SDF3) (M : m44) :
  let rt := Transform3D (Transform3D sdf M) (Inverse M) in
  (forall p,
      Evaluate rt p
      = Evaluate sdf (MulPosition (Inverse M)
                        (MulPosition (Inverse (Inverse M)) p)))
  /\ BoundingBox rt = MulBox (Inverse M) (MulBox M (BoundingBox sdf))
  /\ (forall p,
         MulPosition (Inverse M) (MulPosition (Inverse (Inverse M)) p) = p ->
         Evaluate rt p = Evaluate sdf p)
  /\ (MulBox (Inverse M) (MulBox M (BoundingBox sdf)) = BoundingBox sdf ->
      BoundingBox rt = BoundingBox sdf).
Proof.
  intros rt. subst rt.
  split; [| split; [| split]].
  - intros p. rewrite !Transform3D_Evaluate. reflexivity.
  - rewrite !Transform3D_BoundingBox. reflexivity.
  - intros p Hp. rewrite !Transform3D_Evaluate, Hp. reflexivity.
  - intros Hb. rewrite !Transform3D_BoundingBox. exact Hb.
Qed.

(** C5 for the translation by [(1,2,3)], which the matrix model inverts
    without rounding: at [p = (5,2,0)] the round trip of [planeX] returns the
    original distance, and its bounding box is the original one. *)
Lemma C5_Transform3D_round_trip_witness :
  let M := m44.Translate3d (r3.mkVec 1 2 3) in
  let rt := Transform3D (Transform3D planeX M) (Inverse M) in
  Evaluate rt (r3.mkVec 5 2 0) = Evaluate planeX (r3.mkVec 5 2 0)
  /\ BoundingBox rt = BoundingBox planeX.
Proof.
  intros M rt.
  destruct (@C5_Transform3D_round_trip m44.t _ planeX M)
    as (_ & _ & He & Hb).
  split.
  - apply He. vm_compute. reflexivity.
  - apply Hb. vm_compute. reflexivity.
Defined.

(** C5 as stated fails in both halves, for the box [[-1,1]^3] of
    [Box3D({2,2,2}, 0)] and matrices of determinant 1.

    Bounding box: after the rotation about z with cosine 0.6 and sine 0.8
    and its inverse the box reaches beyond [1.5] in x, and after the shear
    [x' = x + y] and its inverse it is exactly [[-3,3]] in x.

    Distance: for the translation by [(2^60, 0, 0)] the inner transform
    carries [p = (0.5, 0, 0)] to [0.5 + 2^60], which rounds to [2^60], and
    the outer one back to the origin: the round trip returns [-1] where the
    box returns [-0.5], and its bounding box has collapsed to [x = 0]. *)
Lemma C5_counterexample :
  exists sdf : SDF3,
    Box3D (r3.mkVec 2 2 2) 0 = ok sdf
    /\ BoundingBox sdf = d3.Box.mk (r3.mkVec (-1) (-1) (-1)) (r3.mkVec 1 1 1)
    /\ (let rt := Transform3D (Transform3D sdf rotZ_3_4_5)
                              (Inverse rotZ_3_4_5) in
        negb (m44.Determinant rotZ_3_4_5 =? 0) = true
        /\ (1.5 <? r3.X (d3.Box.Max (BoundingBox rt))) = true
        /\ BoundingBox rt <> BoundingBox sdf)
    /\ (let rt := Transform3D (Transform3D sdf shearXY) (Inverse shearXY) in
        m44.Determinant shearXY = 1
        /\ BoundingBox rt
           = d3.Box.mk (r3.mkVec (-3) (-1) (-1)) (r3.mkVec 3 1 1)
        /\ BoundingBox rt <> BoundingBox sdf)
    /\ (let M := m44.Translate3d (r3.mkVec 0x1p+60 0 0) in
        let rt := Transform3D (Transform3D sdf M) (Inverse M) in
        let p := r3.mkVec 0.5 0 0 in
        m44.Determinant M = 1
        /\ MulPosition (Inverse (Inverse M)) p = r3.mkVec 0x1p+60 0 0
        /\ MulPosition (Inverse M) (r3.mkVec 0x1p+60 0 0) = r3.mkVec 0 0 0
        /\ Evaluate sdf p = -0.5
        /\ Evaluate rt p = -1
        /\ Evaluate rt p <> Evaluate sdf p
        /\ BoundingBox rt
           = d3.Box.mk (r3.mkVec 0 (-1) (-1)) (r3.mkVec 0 1 1)
        /\ BoundingBox rt <> BoundingBox sdf).
Proof.
  eexists. split; [reflexivity |]. split; [vm_compute; reflexivity |].
  split; [| split].
  - split; [vm_compute; reflexivity |]. split; [vm_compute; reflexivity |].
    intros E.
    apply (f_equal (fun b => r3.X (d3.Box.Max b))) in E.
    revert E. apply float_neq. vm_compute. reflexivity.
  - split; [vm_compute; reflexivity |]. split; [vm_compute; reflexivity |].
    intros E.
    apply (f_equal (fun b => r3.X (d3.Box.Max b))) in E.
    revert E. apply float_neq. vm_compute. reflexivity.
  - cbv zeta.
    split; [vm_compute; reflexivity |]. split; [vm_compute; reflexivity |].
    split; [vm_compute; reflexivity |]. split; [vm_compute; reflexivity |].
    split; [vm_compute; reflexivity |].
    split; [apply float_neq; vm_compute; reflexivity |].
    split; [vm_compute; reflexivity |].
    intros E.
    apply (f_equal (fun b => r3.X (d3.Box.Max b))) in E.
    revert E. apply float_neq. vm_compute. reflexivity.
Qed.

(** * More facts about binary64 arithmetic *)

Section MoreFloatFacts.

Lemma is_nan_false_spec (x : float) :
  is_nan x = false -> Prim2SF x <> S754_nan.
Proof.
  unfold is_nan. rewrite FloatAxioms.eqb_spec. unfold SFeqb.
  intros H E. rewrite E in H. discriminate H.
Qed.

Lemma SFcompare_None (a b : spec_float) :
  a <> S754_nan -> b <> S754_nan -> SFcompare a b <> None.
Proof.
  destruct a as [sa | sa | | sa ma ea], b as [sb | sb | | sb mb eb];
    simpl; congruence.
Qed.

(** Two values that compare equal are the same value, unless both are
    zeros (of either sign). *)
Lemma SFcompare_Eq (a b : spec_float) :
  SFcompare a b = Some Eq ->
  a = b \/ exists sa sb, a = S754_zero sa /\ b = S754_zero sb.
Proof.
  destruct a as [sa | sa | | sa ma ea], b as [sb | sb | | sb mb eb];
    simpl; try discriminate;
    try (destruct sa; discriminate); try (destruct sb; discriminate).
  - intros _. right. eauto.
  - destruct sa, sb; try discriminate; intros _; left; reflexivity.
  - destruct sa, sb; try discriminate;
      destruct (ea ?= eb)%Z eqn:Ee; try discriminate;
      apply Z.compare_eq in Ee; subst eb; intros Hm; left.
    + assert (Pos.compare_cont Eq ma mb = Eq) as Hc
          by (destruct (Pos.compare_cont Eq ma mb); simpl in Hm; congruence).
      apply Pos.compare_eq in Hc. congruence.
    + assert (Pos.compare_cont Eq ma mb = Eq) as Hc by congruence.
      apply Pos.compare_eq in Hc. congruence.
Qed.

Lemma Prim2SF_zero_cases (x : float) (s : bool) :
  Prim2SF x = S754_zero s -> x = 0 \/ x = -0.
Proof.
  intros H. destruct s; [right | left]; apply Prim2SF_inj; rewrite H;
    reflexivity.
Qed.

Lemma eqb_sym (x y : float) : (x =? y) = (y =? x).
Proof.
  rewrite !FloatAxioms.eqb_spec. unfold SFeqb.
  rewrite (SFcompare_antisym (Prim2SF y) (Prim2SF x)).
  destruct (SFcompare (Prim2SF y) (Prim2SF x)) as [[] |]; reflexivity.
Qed.

Lemma ltb_irrefl (x : float) : (x <? x) = false.
Proof.
  destruct (x <? x) eqn:E; [| reflexivity].
  pose proof (ltb_leb_false E) as H.
  rewrite FloatAxioms.ltb_spec in E. rewrite FloatAxioms.leb_spec in H.
  unfold SFltb in E. unfold SFleb in H.
  destruct (SFcompare (Prim2SF x) (Prim2SF x)) as [[] |]; congruence.
Qed.

Lemma leb_false_ltb_false (x y : float) :
  (x <=? y) = false -> (x <? y) = false.
Proof.
  rewrite FloatAxioms.ltb_spec, FloatAxioms.leb_spec. unfold SFltb, SFleb.
  destruct (SFcompare (Prim2SF x) (Prim2SF y)) as [[] |]; congruence.
Qed.

Lemma sub_zero (x : float) : x - 0 = x.
Proof.
  apply Prim2SF_inj. rewrite FloatAxioms.sub_spec. unfold SF64sub.
  change (Prim2SF 0) with (S754_zero false).
  destruct (Prim2SF x) as [s | s | | s m e]; try reflexivity.
  destruct s; reflexivity.
Qed.

Lemma mul_opp_opp (x y : float) : (- x) * (- y) = x * y.
Proof.
  apply Prim2SF_inj. rewrite !FloatAxioms.mul_spec, !FloatAxioms.opp_spec.
  unfold SF64mul.
  destruct (Prim2SF x) as [sx | sx | | sx mx ex],
           (Prim2SF y) as [sy | sy | | sy my ey];
    simpl; try reflexivity; destruct sx, sy; reflexivity.
Qed.

Lemma Min_idem (a : float) : math.Min a a = a.
Proof.
  unfold math.Min, math.IsInfNeg, math.IsNaN, math.NaN.
  destruct (Leibniz.eqb a neg_infinity) eqn:Ei.
  - apply FloatAxioms.Leibniz.eqb_spec in Ei. simpl. congruence.
  - simpl. destruct (is_nan a) eqn:En.
    + simpl. symmetry. apply is_nan_eq. exact En.
    + simpl. destruct ((a =? 0) && (a =? a)).
      * destruct (math.Signbit a); reflexivity.
      * destruct (a <? a); reflexivity.
Qed.

(** What the ordered comparison of two non-NaN values leaves to decide. *)
Lemma compare_cases (x y : float) :
  is_nan x = false -> is_nan y = false ->
  ((x <? y) = true /\ (y <? x) = false /\ (x =? y) = false /\ (y =? x) = false)
  \/ ((y <? x) = true /\ (x <? y) = false /\ (x =? y) = false /\ (y =? x) = false)
  \/ ((x <? y) = false /\ (y <? x) = false /\ (x =? y) = true /\ (y =? x) = true
      /\ (x = y \/ ((x = 0 \/ x = -0) /\ (y = 0 \/ y = -0)))).
Proof.
  intros Hx Hy.
  apply is_nan_false_spec in Hx. apply is_nan_false_spec in Hy.
  rewrite !FloatAxioms.ltb_spec, !FloatAxioms.eqb_spec. unfold SFltb, SFeqb.
  rewrite (SFcompare_antisym (Prim2SF x) (Prim2SF y)).
  pose proof (SFcompare_None Hx Hy) as Hn.
  pose proof (@SFcompare_Eq (Prim2SF x) (Prim2SF y)) as He.
  destruct (SFcompare (Prim2SF x) (Prim2SF y)) as [[] |]; simpl.
  - right; right. repeat split.
    destruct (He eq_refl) as [E | (sa & sb & Ea & Eb)].
    + left. apply Prim2SF_inj. exact E.
    + right. split; eapply Prim2SF_zero_cases; eassumption.
  - left. repeat split.
  - right; left. repeat split.
  - congruence.
Qed.

Lemma Max_comm (x y : float) : math.Max x y = math.Max y x.
Proof.
  unfold math.Max.
  rewrite (orb_comm (math.IsInfPos y)), (orb_comm (math.IsNaN y)).
  destruct (math.IsInfPos x || math.IsInfPos y); [reflexivity |].
  destruct (math.IsNaN x || math.IsNaN y) eqn:En; [reflexivity |].
  apply orb_false_elim in En. destruct En as [Hx Hy].
  destruct (compare_cases x y Hx Hy)
    as [(H1 & H2 & H3 & H4) | [(H1 & H2 & H3 & H4) | (H1 & H2 & H3 & H4 & He)]];
    rewrite ?H1, ?H2, ?H3, ?H4; rewrite ?andb_false_r; try reflexivity.
  destruct He as [-> | [[-> | ->] [-> | ->]]]; reflexivity.
Qed.

Lemma Min_comm (x y : float) : math.Min x y = math.Min y x.
Proof.
  unfold math.Min.
  rewrite (orb_comm (math.IsInfNeg y)), (orb_comm (math.IsNaN y)).
  destruct (math.IsInfNeg x || math.IsInfNeg y); [reflexivity |].
  destruct (math.IsNaN x || math.IsNaN y) eqn:En; [reflexivity |].
  apply orb_false_elim in En. destruct En as [Hx Hy].
  destruct (compare_cases x y Hx Hy)
    as [(H1 & H2 & H3 & H4) | [(H1 & H2 & H3 & H4) | (H1 & H2 & H3 & H4 & He)]];
    rewrite ?H1, ?H2, ?H3, ?H4; rewrite ?andb_false_r; try reflexivity.
  destruct He as [-> | [[-> | ->] [-> | ->]]]; reflexivity.
Qed.

(** [x < 0] holds exactly for [-Inf] and the negative finite values. *)
Lemma ltb_zero_spec (x : float) :
  (x <? 0) = match Prim2SF x with
             | S754_infinity true | S754_finite true _ _ => true
             | _ => false
             end.
Proof.
  rewrite FloatAxioms.ltb_spec. change (Prim2SF 0) with (S754_zero false).
  destruct (Prim2SF x) as [s | s | | s m e]; try reflexivity;
    destruct s; reflexivity.
Qed.

Lemma zero_ltb_spec (x : float) :
  (0 <? x) = match Prim2SF x with
             | S754_infinity false | S754_finite false _ _ => true
             | _ => false
             end.
Proof.
  rewrite FloatAxioms.ltb_spec. change (Prim2SF 0) with (S754_zero false).
  destruct (Prim2SF x) as [s | s | | s m e]; try reflexivity;
    destruct s; reflexivity.
Qed.

Lemma opp_ltb_zero (x : float) : (- x <? 0) = (0 <? x).
Proof.
  rewrite ltb_zero_spec, zero_ltb_spec, FloatAxioms.opp_spec.
  destruct (Prim2SF x) as [s | s | | s m e]; try reflexivity;
    destruct s; reflexivity.
Qed.

Lemma ltb_zero_facts (x : float) :
  (x <? 0) = true ->
  is_nan x = false /\ math.IsInfPos x = false /\ (x =? 0) = false.
Proof.
  intros H. repeat split.
  - destruct (is_nan x) eqn:E; [| reflexivity].
    apply is_nan_eq in E. subst x. discriminate H.
  - unfold math.IsInfPos. destruct (Leibniz.eqb x infinity) eqn:E; [| reflexivity].
    apply FloatAxioms.Leibniz.eqb_spec in E. subst x. discriminate H.
  - rewrite ltb_zero_spec in H. rewrite FloatAxioms.eqb_spec. unfold SFeqb.
    change (Prim2SF 0) with (S754_zero false).
    destruct (Prim2SF x) as [s | s | | s m e]; try discriminate;
      destruct s; try discriminate; reflexivity.
Qed.

Lemma ltb_neg_trans (a b : float) :
  (a <? b) = true -> (b <? 0) = true -> (a <? 0) = true.
Proof.
  rewrite !ltb_zero_spec, FloatAxioms.ltb_spec. unfold SFltb.
  destruct (Prim2SF a) as [sa | sa | | sa ma ea],
           (Prim2SF b) as [sb | sb | | sb mb eb];
    simpl; try discriminate;
    destruct sa; try discriminate; try reflexivity;
    destruct sb; discriminate.
Qed.

(** A maximum is negative exactly when both arguments are. *)
Lemma Max_neg (x y : float) :
  (math.Max x y <? 0) = true <-> (x <? 0) = true /\ (y <? 0) = true.
Proof.
  unfold math.Max, math.IsNaN, math.NaN. split.
  - destruct (math.IsInfPos x || math.IsInfPos y); [discriminate |].
    destruct (is_nan x || is_nan y) eqn:En; [discriminate |].
    apply orb_false_elim in En. destruct En as [Hx Hy].
    destruct (compare_cases x y Hx Hy)
      as [(H1 & H2 & H3 & H4) | [(H1 & H2 & H3 & H4) | (H1 & H2 & H3 & H4 & He)]];
      rewrite ?H1, ?H2, ?H3, ?H4; rewrite ?andb_false_r.
    + intros H. split; [eapply ltb_neg_trans; eassumption | exact H].
    + intros H. split; [exact H | eapply ltb_neg_trans; eassumption].
    + rewrite andb_true_r.
      destruct He as [-> | [Zx Zy]].
      * destruct (y =? 0); [destruct (math.Signbit y) |]; intros H; split; exact H.
      * destruct Zx as [-> | ->], Zy as [-> | ->]; discriminate.
  - intros [Hx Hy].
    destruct (ltb_zero_facts Hx) as (Nx & Ix & Zx).
    destruct (ltb_zero_facts Hy) as (Ny & Iy & Zy).
    rewrite Ix, Iy, Nx, Ny, Zx. simpl.
    destruct (y <? x); assumption.
Qed.

(** A negative minimum has a negative argument. *)
Lemma Min_neg (x y : float) :
  (math.Min x y <? 0) = true -> (x <? 0) = true \/ (y <? 0) = true.
Proof.
  unfold math.Min, math.IsInfNeg, math.IsNaN, math.NaN.
  destruct (Leibniz.eqb x neg_infinity) eqn:Ex.
  - apply FloatAxioms.Leibniz.eqb_spec in Ex. subst x. intros _. left. reflexivity.
  - destruct (Leibniz.eqb y neg_infinity) eqn:Ey.
    + apply FloatAxioms.Leibniz.eqb_spec in Ey. subst y. intros _. right. reflexivity.
    + simpl. destruct (is_nan x || is_nan y); [discriminate |].
      destruct ((x =? 0) && (x =? y)).
      * destruct (math.Signbit x); auto.
      * destruct (x <? y); auto.
Qed.

(** With no NaN involved, a minimum is negative as soon as an argument is. *)
Lemma Min_neg_intro (x y : float) :
  is_nan x = false -> is_nan y = false ->
  (x <? 0) = true \/ (y <? 0) = true -> (math.Min x y <? 0) = true.
Proof.
  intros Nx Ny H. unfold math.Min, math.IsInfNeg, math.IsNaN, math.NaN.
  destruct (Leibniz.eqb x neg_infinity || Leibniz.eqb y neg_infinity);
    [reflexivity |].
  rewrite Nx, Ny. simpl.
  destruct (compare_cases x y Nx Ny)
    as [(H1 & H2 & H3 & H4) | [(H1 & H2 & H3 & H4) | (H1 & H2 & H3 & H4 & He)]];
    rewrite ?H1, ?H2, ?H3, ?H4; rewrite ?andb_false_r.
  - destruct H as [H | H]; [exact H | eapply ltb_neg_trans; eassumption].
  - destruct H as [H | H]; [eapply ltb_neg_trans; eassumption | exact H].
  - rewrite andb_true_r. destruct He as [-> | [Zx Zy]].
    + assert ((y <? 0) = true) as Hy by (destruct H; assumption).
      destruct (y =? 0); [destruct (math.Signbit y) |]; exact Hy.
    + destruct Zx as [-> | ->], Zy as [-> | ->]; destruct H; discriminate.
Qed.

End MoreFloatFacts.

(** * Union: nil arguments, evaluation and box *)

Lemma stripNils_acc (l : list (option SDF3)) (acc : list SDF3) :
  fold_left (fun acc x => match x with
                          | Some x => acc ++ [x]
                          | None => acc
                          end) l acc
  = acc ++ nonNils l.
Proof.
  revert acc. induction l as [| [x |] l IH]; intros acc; simpl.
  - rewrite app_nil_r. reflexivity.
  - rewrite IH, <- app_assoc. reflexivity.
  - apply IH.
Qed.

Lemma stripNils_nonNils (l : list (option SDF3)) : stripNils l = nonNils l.
Proof. unfold stripNils. rewrite stripNils_acc. reflexivity. Qed.

Lemma nonNils_map_Some (m : list SDF3) : nonNils (map Some m) = m.
Proof. induction m as [| x m IH]; simpl; [| rewrite IH]; reflexivity. Qed.

Lemma nonNils_nil_iff (l : list (option SDF3)) :
  nonNils l = [] <-> Forall (fun x => x = None) l.
Proof.
  induction l as [| [x |] l IH]; simpl.
  - split; [constructor | reflexivity].
  - split; [discriminate | intros H; inversion H; discriminate].
  - rewrite IH. split.
    + intros H. constructor; [reflexivity | exact H].
    + intros H. inversion H. assumption.
Qed.

(** [Union3D] in terms of its non-nil arguments. *)
Lemma Union3D_nonNils (l : list (option SDF3)) :
  Union3D l
  = match nonNils l with
    | [] => None
    | [x] => Some x
    | x0 :: _ :: _ =>
        Some (ref (UnionSDF3.mk (nonNils l) math.Min
                     (fold_left (fun bb x => d3.Box.Extend bb (BoundingBox x))
                                (nonNils l) (BoundingBox x0))))
    end.
Proof.
  destruct l as [| x l]; [reflexivity |].
  unfold Union3D. rewrite stripNils_nonNils. reflexivity.
Qed.

(** X1: [Union3D] ignores nil arguments: the result is that of the call
    with the nil arguments dropped, and it is nil exactly when every
    argument is nil (in particular when there is none). *)
Theorem X1_Union3D_ignores_nils (l : list (option SDF3)) :
  Union3D l = Union3D (map Some (nonNils l))
  /\ (Union3D l = None <-> Forall (fun x => x = None) l).
Proof.
  split.
  - rewrite (Union3D_nonNils (map Some (nonNils l))), nonNils_map_Some.
    apply Union3D_nonNils.
  - rewrite <- nonNils_nil_iff, Union3D_nonNils.
    destruct (nonNils l) as [| x0 [| x1 rest]]; split;
      try reflexivity; discriminate.
Qed.

Lemma MinElem3_idem (v : r3.Vec) : d3.MinElem v v = v.
Proof. destruct v. unfold d3.MinElem. simpl. rewrite !Min_idem. reflexivity. Qed.

Lemma MaxElem3_idem (v : r3.Vec) : d3.MaxElem v v = v.
Proof. destruct v. unfold d3.MaxElem. simpl. rewrite !Max_idem. reflexivity. Qed.

Lemma Extend_idem (b : d3.Box.t) : d3.Box.Extend b b = b.
Proof.
  destruct b. unfold d3.Box.Extend. simpl.
  rewrite MinElem3_idem, MaxElem3_idem. reflexivity.
Qed.

Lemma Extend_comm (a b : d3.Box.t) : d3.Box.Extend a b = d3.Box.Extend b a.
Proof.
  unfold d3.Box.Extend, d3.MinElem, d3.MaxElem.
  rewrite (Min_comm (r3.X (d3.Box.Min a))), (Min_comm (r3.Y (d3.Box.Min a))),
          (Min_comm (r3.Z (d3.Box.Min a))), (Max_comm (r3.X (d3.Box.Max a))),
          (Max_comm (r3.Y (d3.Box.Max a))), (Max_comm (r3.Z (d3.Box.Max a))).
  reflexivity.
Qed.

(** X2: with at least two non-nil arguments [x0, x1, ...] (nil ones
    skipped), [Union3D] returns a node that evaluates at [p] to the
    left-to-right [math.Min] of the children's distances and whose box is the
    left-to-right [Extend] of the children's boxes. *)
Theorem X2_Union3D_many (l : list (option SDF3)) (x0 x1 : SDF3)
    (rest : list SDF3) :
  nonNils l = x0 :: x1 :: rest ->
  exists u : SDF3,
    Union3D l = Some u
    /\ (forall p,
           Evaluate u p
           = fold_left (fun d x => math.Min d (Evaluate x p)) (x1 :: rest)
                       (Evaluate x0 p))
    /\ BoundingBox u
       = fold_left (fun bb x => d3.Box.Extend bb (BoundingBox x)) (x1 :: rest)
                   (BoundingBox x0).
Proof.
  intros H. rewrite Union3D_nonNils, H. eexists. split; [reflexivity |].
  split.
  - intros p. reflexivity.
  - cbn [BoundingBox ref boundingBox UnionSDF3_SDF3 UnionSDF3.BoundingBox
         UnionSDF3.bb fold_left].
    rewrite Extend_idem. reflexivity.
Qed.

(** X2 on [Union3D(planeX, nil, unitBall, bigBall)] at [p = (3,0,0)]: the
    distances are 3, 2 and 1, the boxes [[-1,1]^3] twice and [[-2,2]^3]. *)
Lemma X2_Union3D_many_witness :
  exists u : SDF3,
    Union3D [Some planeX; None; Some unitBall; Some bigBall] = Some u
    /\ Evaluate u (r3.mkVec 3 0 0) = 1
    /\ BoundingBox u = d3.Box.mk (r3.mkVec (-2) (-2) (-2)) (r3.mkVec 2 2 2).
Proof.
  destruct (@X2_Union3D_many [Some planeX; None; Some unitBall; Some bigBall]
              planeX unitBall [bigBall] eq_refl) as (u & Hu & He & Hb).
  exists u. split; [exact Hu |]. split.
  - rewrite He. vm_compute. reflexivity.
  - rewrite Hb. vm_compute. reflexivity.
Defined.

(** X3: the union of two solids does not depend on their order: the two
    results evaluate to the same distance everywhere and have the same
    box. *)
Theorem X3_Union3D_two_symmetric (a b : SDF3) :
  exists u v : SDF3,
    Union3D [Some a; Some b] = Some u
    /\ Union3D [Some b; Some a] = Some v
    /\ (forall p, Evaluate u p = Evaluate v p)
    /\ BoundingBox u = BoundingBox v.
Proof.
  do 2 eexists. split; [reflexivity |]. split; [reflexivity |]. split.
  - intros p. cbn. apply Min_comm.
  - cbn. rewrite !Extend_idem. apply Extend_comm.
Qed.

(** A fold of [math.Min] is negative only if its start or one of the folded
    values is. *)
Lemma fold_Min_neg (A : Type) (f : A -> float) (l : list A) (d0 : float) :
  (fold_left (fun d x => math.Min d (f x)) l d0 <? 0) = true ->
  (d0 <? 0) = true \/ Exists (fun x => (f x <? 0) = true) l.
Proof.
  revert d0. induction l as [| x l IH]; intros d0 H; simpl in H.
  - left. exact H.
  - destruct (IH _ H) as [Hm | He].
    + destruct (Min_neg _ _ Hm) as [H0 | Hx].
      * left. exact H0.
      * right. constructor 1. exact Hx.
    + right. constructor 2. exact He.
Qed.

(** X4: a point strictly inside a union (negative distance) is strictly
    inside one of its non-nil arguments: [Union3D] never reports a point
    inside that no child reports inside. *)
Theorem X4_Union3D_inside (l : list (option SDF3)) (u : SDF3) (p : r3.Vec) :
  Union3D l = Some u ->
  (Evaluate u p <? 0) = true ->
  Exists (fun x => (Evaluate x p <? 0) = true) (nonNils l).
Proof.
  rewrite Union3D_nonNils.
  destruct (nonNils l) as [| x0 [| x1 rest]] eqn:E; intros Hu Hp.
  - discriminate Hu.
  - injection Hu as <-. constructor 1. exact Hp.
  - injection Hu as <-.
    change (Evaluate _ p)
      with (fold_left (fun d x => math.Min d (Evaluate x p)) (x1 :: rest)
                      (Evaluate x0 p)) in Hp.
    destruct (fold_Min_neg _ _ _ Hp) as [H0 | He].
    + constructor 1. exact H0.
    + constructor 2. exact He.
Qed.

(** X4 on [Union3D(planeX, bigBall)] at [p = (1,1,0)]: the union's distance
    is negative there, and [bigBall]'s is. *)
Lemma X4_Union3D_inside_witness :
  Exists (fun x => (Evaluate x (r3.mkVec 1 1 0) <? 0) = true)
         [planeX; bigBall].
Proof.
  apply (@X4_Union3D_inside [Some planeX; Some bigBall]
           (ref (UnionSDF3.mk [planeX; bigBall] math.Min
                   (d3.Box.Extend (d3.Box.Extend (BoundingBox planeX)
                                                 (BoundingBox planeX))
                                  (BoundingBox bigBall))))
           (r3.mkVec 1 1 0)).
  - reflexivity.
  - vm_compute. reflexivity.
Defined.

(** * Intersection, difference, cut and extrusion: which points are inside *)

(** X5: [Intersect3D] is nil exactly when one of its operands is; for
    non-nil operands the distance does not depend on their order, while the
    box is that of whichever operand comes first. *)
Theorem X5_Intersect3D_nil_symmetric :
  (forall A B : option SDF3,
      Intersect3D A B = None <-> A = None \/ B = None)
  /\ (forall a b : SDF3,
         exists u v : SDF3,
           Intersect3D (Some a) (Some b) = Some u
           /\ Intersect3D (Some b) (Some a) = Some v
           /\ (forall p, Evaluate u p = Evaluate v p)
           /\ BoundingBox u = BoundingBox a
           /\ BoundingBox v = BoundingBox b).
Proof.
  split.
  - intros [a |] [b |]; simpl; split; intros H;
      try reflexivity; try discriminate; auto.
    destruct H; discriminate.
  - intros a b. do 2 eexists.
    split; [reflexivity |]. split; [reflexivity |]. split.
    + intros p. cbn. apply Max_comm.
    + split; reflexivity.
Qed.

(** The order of the operands of [Intersect3D] does change the box:
    [planeX] has the box [[-1,1]^3], [bigBall] the box [[-2,2]^3]. *)
Example Intersect3D_box_depends_on_order :
  exists u v : SDF3,
    Intersect3D (Some planeX) (Some bigBall) = Some u
    /\ Intersect3D (Some bigBall) (Some planeX) = Some v
    /\ BoundingBox u <> BoundingBox v.
Proof.
  do 2 eexists. split; [reflexivity |]. split; [reflexivity |].
  intros E. apply (f_equal (fun b => r3.X (d3.Box.Max b))) in E.
  revert E. apply float_neq. vm_compute. reflexivity.
Qed.

(** X6: a point is strictly inside an intersection (negative distance)
    exactly when it is strictly inside both operands. *)
Theorem X6_Intersect3D_inside (a b : SDF3) (p : r3.Vec) :
  exists u : SDF3,
    Intersect3D (Some a) (Some b) = Some u
    /\ ((Evaluate u p <? 0) = true
        <-> (Evaluate a p <? 0) = true /\ (Evaluate b p <? 0) = true).
Proof.
  eexists. split; [reflexivity |]. cbn. apply Max_neg.
Qed.

(** X7: a point is strictly inside a difference [A - B] exactly when it is
    strictly inside [A] and strictly outside [B] (positive distance). *)
Theorem X7_Difference3D_inside (a b : SDF3) (p : r3.Vec) :
  exists d : SDF3,
    Difference3D (Some a) (Some b) = Some d
    /\ ((Evaluate d p <? 0) = true
        <-> (Evaluate a p <? 0) = true /\ (0 <? Evaluate b p) = true).
Proof.
  eexists. split; [reflexivity |]. cbn.
  rewrite Max_neg, opp_ltb_zero. reflexivity.
Qed.

(** X8: a point is strictly inside a cut solid exactly when it is strictly
    inside the solid and strictly on the kept side of the plane, that is,
    its offset from the plane point has a negative product with the stored
    normal [-n/|n|]. *)
Theorem X8_Cut3D_inside (sdf : SDF3) (a n p : r3.Vec) :
  (Evaluate (Cut3D sdf a n) p <? 0) = true
  <-> (r3.Dot (r3.Sub p a) (r3.Scale (-1) (r3.Unit n)) <? 0) = true
      /\ (Evaluate sdf p <? 0) = true.
Proof. cbn. apply Max_neg. Qed.

(** X9: a point is strictly inside an extrusion exactly when it projects,
    through the extrude function, strictly inside the profile and lies
    strictly within the slab [|z| - height < 0] of the stored half height;
    for [Extrude3D] that is [|z| - height/2 < 0] and the projection
    [NormalExtrude]. *)
Theorem X9_ExtrudeSDF3_inside :
  (forall (s : ExtrudeSDF3.t) (p : r3.Vec),
      (Evaluate (ref s) p <? 0) = true
      <-> (Evaluate2 (ExtrudeSDF3.sdf s) (ExtrudeSDF3.extrude s p) <? 0) = true
          /\ (math.Abs (r3.Z p) - ExtrudeSDF3.height s <? 0) = true)
  /\ (forall (NormalExtrude : ExtrudeFunc) (sdf : SDF2) (height : float)
             (p : r3.Vec),
         (Evaluate (Extrude3D NormalExtrude sdf height) p <? 0) = true
         <-> (Evaluate2 sdf (NormalExtrude p) <? 0) = true
             /\ (math.Abs (r3.Z p) - height / 2 <? 0) = true).
Proof.
  split.
  - intros s p. cbn. apply Max_neg.
  - intros NE sdf height p. cbn. apply Max_neg.
Qed.

(** * Mirror symmetries of the primitives *)

Lemma Hypot_opp_l (p q : float) : math.Hypot (- p) q = math.Hypot p q.
Proof. unfold math.Hypot, math.Abs. rewrite abs_opp. reflexivity. Qed.

Lemma Hypot_opp_r (p q : float) : math.Hypot p (- q) = math.Hypot p q.
Proof. unfold math.Hypot, math.Abs. rewrite abs_opp. reflexivity. Qed.

(** X10: the box distance depends on the point only through the absolute
    values of its coordinates: negating any coordinate of the point leaves
    [BoxSDF3.Evaluate] unchanged, for every box. *)
Theorem X10_BoxSDF3_mirror (s : BoxSDF3.t) (x y z : float) :
  Evaluate (ref s) (r3.mkVec (- x) y z) = Evaluate (ref s) (r3.mkVec x y z)
  /\ Evaluate (ref s) (r3.mkVec x (- y) z) = Evaluate (ref s) (r3.mkVec x y z)
  /\ Evaluate (ref s) (r3.mkVec x y (- z)) = Evaluate (ref s) (r3.mkVec x y z).
Proof.
  cbn. unfold BoxSDF3.Evaluate, sdfBox3d, d3.AbsElem, math.Abs. cbn.
  rewrite !abs_opp. repeat split; reflexivity.
Qed.

(** X11: the sphere distance is unchanged by negating any coordinate of the
    point; the cylinder distance (whatever the 2D box distance it is given)
    and the cone distance are unchanged by negating [x] or [y]. *)
Theorem X11_round_primitives_mirror :
  (forall (s : SphereSDF3.t) (x y z : float),
      Evaluate (ref s) (r3.mkVec (- x) y z) = Evaluate (ref s) (r3.mkVec x y z)
      /\ Evaluate (ref s) (r3.mkVec x (- y) z)
         = Evaluate (ref s) (r3.mkVec x y z)
      /\ Evaluate (ref s) (r3.mkVec x y (- z))
         = Evaluate (ref s) (r3.mkVec x y z))
  /\ (forall (sdfBox2d : r2.Vec -> r2.Vec -> float) (s : CylinderSDF3.t)
             (x y z : float),
         CylinderSDF3.Evaluate sdfBox2d s (r3.mkVec (- x) y z)
         = CylinderSDF3.Evaluate sdfBox2d s (r3.mkVec x y z)
         /\ CylinderSDF3.Evaluate sdfBox2d s (r3.mkVec x (- y) z)
            = CylinderSDF3.Evaluate sdfBox2d s (r3.mkVec x y z))
  /\ (forall (s : ConeSDF3.t) (x y z : float),
         Evaluate (ref s) (r3.mkVec (- x) y z)
         = Evaluate (ref s) (r3.mkVec x y z)
         /\ Evaluate (ref s) (r3.mkVec x (- y) z)
            = Evaluate (ref s) (r3.mkVec x y z)).
Proof.
  split; [| split].
  - intros s x y z. cbn. unfold SphereSDF3.Evaluate, r3.Norm. cbn.
    rewrite Hypot_opp_l, (Hypot_opp_l y z), (Hypot_opp_r y z).
    repeat split; reflexivity.
  - intros f s x y z. unfold CylinderSDF3.Evaluate, r2.Norm. cbn.
    rewrite Hypot_opp_l, Hypot_opp_r. split; reflexivity.
  - intros s x y z. cbn. unfold ConeSDF3.Evaluate. cbn.
    rewrite Hypot_opp_l, Hypot_opp_r. split; reflexivity.
Qed.

(** X12: a rounded extrusion is mirror-symmetric about the plane [z = 0]:
    its distance at [(x, y, -z)] is its distance at [(x, y, z)]. *)
Theorem X12_ExtrudeRoundedSDF3_mirror (s : ExtrudeRoundedSDF3.t)
    (x y z : float) :
  Evaluate (ref s) (r3.mkVec x y (- z)) = Evaluate (ref s) (r3.mkVec x y z).
Proof.
  cbn. unfold ExtrudeRoundedSDF3.Evaluate, math.Abs. cbn.
  rewrite abs_opp. reflexivity.
Qed.

(** * Guards of the remaining constructors *)

(** X13: [Capsule3D(height, radius)], the cylinder rounded by its own
    radius, fails exactly through the guards [radius <= 0] and
    [height < 2*radius]; the guards on [round] never fire for it.  When
    accepted its box is [(+-radius, +-radius, +-height/2)]. *)
Theorem X13_Capsule3D_guards (sdfBox2d : r2.Vec -> r2.Vec -> float)
    (height radius : float) :
  ((radius <=? 0) = true \/ (height <? 2 * radius) = true ->
   failed (Capsule3D sdfBox2d height radius))
  /\ ((radius <=? 0) = false -> (height <? 2 * radius) = false ->
      exists s : SDF3,
        Capsule3D sdfBox2d height radius = ok s
        /\ BoundingBox s
           = d3.Box.mk (r3.Scale (-1) (r3.mkVec radius radius (height / 2)))
                       (r3.mkVec radius radius (height / 2))).
Proof.
  unfold Capsule3D. split.
  - intros H. apply Cylinder3D_guards. tauto.
  - intros Hr Hh. unfold Cylinder3D.
    rewrite Hr, (leb_false_ltb_false Hr), ltb_irrefl, Hh.
    eexists. split; reflexivity.
Qed.

(** X13 on a rejected capsule (height 1 below the diameter 2) and an
    accepted one (height 4, radius 1). *)
Lemma X13_Capsule3D_guards_witness :
  (forall sdfBox2d, failed (Capsule3D sdfBox2d 1 1))
  /\ (forall sdfBox2d,
         exists s : SDF3,
           Capsule3D sdfBox2d 4 1 = ok s
           /\ BoundingBox s
              = d3.Box.mk (r3.mkVec (-1) (-1) (-2)) (r3.mkVec 1 1 2)).
Proof.
  split; intros f.
  - apply (proj1 (X13_Capsule3D_guards f 1 1)). right. reflexivity.
  - destruct (proj2 (X13_Capsule3D_guards f 4 1) eq_refl eq_refl)
      as (s & Hs & Hb).
    exists s. split; [exact Hs |]. rewrite Hb. vm_compute. reflexivity.
Defined.

(** X14: with [round == 0] (either zero) [ExtrudeRounded3D] returns the
    plain extrusion [Extrude3D(sdf, height)] without validating [height],
    and with a nil profile it panics on the nil dereference instead of
    returning the error ["sdf == nil"]. *)
Theorem X14_ExtrudeRounded3D_round_zero (NormalExtrude : ExtrudeFunc)
    (sdf : SDF2) (height round : float) :
  (round =? 0) = true ->
  ExtrudeRounded3D NormalExtrude (Some sdf) height round
  = Some (ok (Extrude3D NormalExtrude sdf height))
  /\ ExtrudeRounded3D NormalExtrude None height round = None.
Proof.
  intros H. unfold ExtrudeRounded3D. rewrite H. split; reflexivity.
Qed.

(** X14 at [round = -0] and the negative height [-1]. *)
Lemma X14_ExtrudeRounded3D_round_zero_witness :
  let NormalExtrude : ExtrudeFunc := fun p => r2.mkVec (r3.X p) (r3.Y p) in
  ExtrudeRounded3D NormalExtrude (Some unitDisc) (-1) (-0)
  = Some (ok (Extrude3D NormalExtrude unitDisc (-1)))
  /\ ExtrudeRounded3D NormalExtrude None (-1) (-0) = None.
Proof.
  intros NE.
  exact (@X14_ExtrudeRounded3D_round_zero NE unitDisc (-1) (-0) eq_refl).
Defined.

(** X15: with [round != 0], [ExtrudeRounded3D] returns normally; it fails,
    with no value, on a nil profile and whenever [height <= 0], [round < 0]
    or [height < 2*round], and otherwise returns the rounded extrusion with
    no error. *)
Theorem X15_ExtrudeRounded3D_guards (NormalExtrude : ExtrudeFunc)
    (height round : float) :
  (round =? 0) = false ->
  (exists r, ExtrudeRounded3D NormalExtrude None height round = Some r
             /\ failed r)
  /\ (forall sdf : SDF2,
         ((height <=? 0) = true \/ (round <? 0) = true
          \/ (height <? 2 * round) = true ->
          exists r, ExtrudeRounded3D NormalExtrude (Some sdf) height round
                    = Some r /\ failed r)
         /\ ((height <=? 0) = false -> (round <? 0) = false ->
             (height <? 2 * round) = false ->
             ExtrudeRounded3D NormalExtrude (Some sdf) height round
             = Some (ok (ref (newExtrudeRoundedSDF3 sdf height round))))).
Proof.
  intros H0. unfold ExtrudeRounded3D. rewrite H0. split.
  - eexists. split; [reflexivity |]. apply failed_fail.
  - intros sdf. split.
    + intros H. eexists. split; [reflexivity |]. unfold errors_New.
      destruct (height <=? 0); [apply (failed_fail "height <= 0") |].
      destruct (round <? 0); [apply (failed_fail "round < 0") |].
      destruct (height <? 2 * round);
        [apply (failed_fail "height < 2 * round") |].
      exfalso. intuition congruence.
    + intros H1 H2 H3. rewrite H1, H2, H3. reflexivity.
Qed.

(** X15 at [round = 1]: the height 1 is rejected, the height 4 accepted. *)
Lemma X15_ExtrudeRounded3D_guards_witness :
  let NormalExtrude : ExtrudeFunc := fun p => r2.mkVec (r3.X p) (r3.Y p) in
  (exists r, ExtrudeRounded3D NormalExtrude (Some unitDisc) 1 1 = Some r
             /\ failed r)
  /\ ExtrudeRounded3D NormalExtrude (Some unitDisc) 4 1
     = Some (ok (ref (newExtrudeRoundedSDF3 unitDisc 4 1))).
Proof.
  intros NE.
  destruct (@X15_ExtrudeRounded3D_guards NE 1 1 eq_refl) as [_ H1].
  destruct (@X15_ExtrudeRounded3D_guards NE 4 1 eq_refl) as [_ H4].
  split.
  - apply (proj1 (H1 unitDisc)). right; right. reflexivity.
  - apply (proj2 (H4 unitDisc)); reflexivity.
Defined.

(** X16: [Loft3D] fails, with an error and no value, exactly when a profile
    is nil, [height <= 0], [round < 0] or [height < 2*round]; in every other
    case it returns a value and no error. *)
Theorem X16_Loft3D_guards (Clamp Mix : float -> float -> float -> float)
    (sdf0 sdf1 : option SDF2) (height round : float) :
  (failed (Loft3D Clamp Mix sdf0 sdf1 height round)
   <-> sdf0 = None \/ sdf1 = None \/ (height <=? 0) = true
       \/ (round <? 0) = true \/ (height <? 2 * round) = true)
  /\ (failed (Loft3D Clamp Mix sdf0 sdf1 height round)
      \/ exists s : SDF3, Loft3D Clamp Mix sdf0 sdf1 height round = ok s).
Proof.
  unfold Loft3D, errors_New.
  destruct sdf0 as [a |]; [| split; [split; [auto | intros _] | left];
                              apply (failed_fail "sdf0 == nil")].
  destruct sdf1 as [b |]; [| split; [split; [auto | intros _] | left];
                              apply (failed_fail "sdf1 == nil")].
  destruct (height <=? 0); [split; [split; [auto | intros _] | left];
                            apply (failed_fail "height <= 0") |].
  destruct (round <? 0); [split; [split; [auto 6 | intros _] | left];
                          apply (failed_fail "round < 0") |].
  destruct (height <? 2 * round);
    [split; [split; [auto 6 | intros _] | left];
     apply (failed_fail "height < 2 * round") |].
  split.
  - split.
    + intros [H _]. discriminate H.
    + intros [H | [H | [H | [H | H]]]]; discriminate H.
  - right. eexists. reflexivity.
Qed.

(** * Shell and offset *)

(** X17: [Shell3D] fails, with no value, when [thickness <= 0]; otherwise
    it returns a shell that evaluates to [|d| - thickness/2] for the child's
    distance [d], so two points at opposite child distances get the same
    shell distance. *)
Theorem X17_Shell3D (Enlarge : d3.Box.t -> r3.Vec -> d3.Box.t)
    (sdf : SDF3) (thickness : float) :
  ((thickness <=? 0) = true -> failed (Shell3D Enlarge sdf thickness))
  /\ ((thickness <=? 0) = false ->
      exists s : SDF3,
        Shell3D Enlarge sdf thickness = ok s
        /\ (forall p,
               Evaluate s p = math.Abs (Evaluate sdf p) - 0.5 * thickness)
        /\ (forall p q,
               Evaluate sdf p = - Evaluate sdf q ->
               Evaluate s p = Evaluate s q)).
Proof.
  unfold Shell3D. split; intros H; rewrite H.
  - apply failed_fail.
  - eexists. split; [reflexivity |]. split.
    + intros p. reflexivity.
    + intros p q E. cbn. unfold ShellSDF3.Evaluate, math.Abs. cbn.
      rewrite E, abs_opp. reflexivity.
Qed.

(** X17 on a shell of thickness 1 about [planeX]: the points [(2,0,0)] and
    [(-2,0,0)], at distances 2 and -2, both get [1.5]; thickness 0 is
    rejected. *)
Lemma X17_Shell3D_witness :
  (forall Enlarge, failed (Shell3D Enlarge planeX 0))
  /\ (forall Enlarge,
         exists s : SDF3,
           Shell3D Enlarge planeX 1 = ok s
           /\ Evaluate s (r3.mkVec 2 0 0) = 1.5
           /\ Evaluate s (r3.mkVec 2 0 0) = Evaluate s (r3.mkVec (-2) 0 0)).
Proof.
  split; intros E.
  - apply (proj1 (X17_Shell3D E planeX 0)). reflexivity.
  - destruct (proj2 (X17_Shell3D E planeX 1) eq_refl) as (s & Hs & He & Hm).
    exists s. split; [exact Hs |]. split.
    + rewrite He. vm_compute. reflexivity.
    + apply Hm. vm_compute. reflexivity.
Defined.

(** X18: an offset by [0] changes no distance: [Offset3D(sdf, 0)] evaluates
    at every point to exactly what [sdf] does, NaN and signed zeros
    included. *)
Theorem X18_Offset3D_zero (NewBox : r3.Vec -> r3.Vec -> d3.Box.t)
    (Center Size : d3.Box.t -> r3.Vec) (sdf : SDF3) (p : r3.Vec) :
  Evaluate (Offset3D NewBox Center Size sdf 0) p = Evaluate sdf p.
Proof. cbn. unfold OffsetSDF3.Evaluate. cbn. apply sub_zero. Qed.

(** * Unions of placed copies *)

Lemma fold_left_map (A B C : Type) (f : A -> C -> A) (g : B -> C)
    (l : list B) (a : A) :
  fold_left f (map g l) a = fold_left (fun a x => f a (g x)) l a.
Proof. revert a. induction l as [| x l IH]; intros a; simpl; auto. Qed.

(** The union of copies of [s] placed by the matrices [M x]. *)
Lemma Union3D_placed (m44 : Type) `{M44Ops m44} (A : Type) (M : A -> m44)
    (s : SDF3) (x0 : A) (xs : list A) :
  exists u : SDF3,
    Union3D (map (fun x => Some (Transform3D s (M x))) (x0 :: xs)) = Some u
    /\ (xs = [] -> u = Transform3D s (M x0))
    /\ (forall q,
           Evaluate u q
           = fold_left (fun d x =>
                          math.Min d (Evaluate s (MulPosition (Inverse (M x)) q)))
                       xs (Evaluate s (MulPosition (Inverse (M x0)) q))).
Proof.
  rewrite Union3D_nonNils.
  replace (nonNils (map (fun x => Some (Transform3D s (M x))) (x0 :: xs)))
    with (map (fun x => Transform3D s (M x)) (x0 :: xs))
    by (rewrite <- (nonNils_map_Some (map _ (x0 :: xs))), map_map; reflexivity).
  destruct xs as [| x1 rest]; simpl map.
  - eexists. split; [reflexivity |]. split; [reflexivity |].
    intros q. reflexivity.
  - eexists. split; [reflexivity |]. split; [discriminate |].
    intros q.
    cbn [Evaluate ref evaluate UnionSDF3_SDF3 UnionSDF3.Evaluate UnionSDF3.sdf
         UnionSDF3.min].
    change (Transform3D s (M x1) :: map (fun x => Transform3D s (M x)) rest)
      with (map (fun x => Transform3D s (M x)) (x1 :: rest)).
    rewrite fold_left_map. reflexivity.
Qed.

(** X19: [Multi3D] returns nil for a nil solid or an empty position list;
    for one position it returns the translated solid itself, not a union;
    for several it returns their union, whose distance at [q] is the
    left-to-right [math.Min] of the solid's distances at the points [q]
    carried back by the inverse of each translation.  [Orient3D] behaves the
    same with the rotations [rotateToVec(base, d)], a single direction giving
    the rotated solid itself. *)
Theorem X19_Multi3D_Orient3D (m44 : Type) `{M44Ops m44}
    (Translate3d : r3.Vec -> m44) (rotateToVec : r3.Vec -> r3.Vec -> m44) :
  (forall s, Multi3D Translate3d s [] = None)
  /\ (forall positions, Multi3D Translate3d None positions = None)
  /\ (forall s p0, Multi3D Translate3d (Some s) [p0]
                   = Some (Transform3D s (Translate3d p0)))
  /\ (forall s p0 ps,
         exists u : SDF3,
           Multi3D Translate3d (Some s) (p0 :: ps) = Some u
           /\ forall q,
               Evaluate u q
               = fold_left
                   (fun d p =>
                      math.Min d (Evaluate s (MulPosition
                                                (Inverse (Translate3d p)) q)))
                   ps
                   (Evaluate s (MulPosition (Inverse (Translate3d p0)) q)))
  /\ (forall s base, Orient3D rotateToVec s base [] = None)
  /\ (forall base directions, Orient3D rotateToVec None base directions = None)
  /\ (forall s base d0, Orient3D rotateToVec (Some s) base [d0]
                        = Some (Transform3D s (rotateToVec base d0)))
  /\ (forall s base d0 ds,
         exists u : SDF3,
           Orient3D rotateToVec (Some s) base (d0 :: ds) = Some u
           /\ forall q,
               Evaluate u q
               = fold_left
                   (fun d x =>
                      math.Min d (Evaluate s (MulPosition
                                                (Inverse (rotateToVec base x)) q)))
                   ds
                   (Evaluate s (MulPosition (Inverse (rotateToVec base d0)) q))).
Proof.
  split; [intros [s |]; reflexivity |].
  split; [intros [| p ps]; reflexivity |].
  split; [intros s p0; reflexivity |].
  split.
  - intros s p0 ps.
    destruct (Union3D_placed Translate3d s p0 ps) as (u & Hu & _ & He).
    exists u. split; [exact Hu | exact He].
  - split; [intros [s |] base; reflexivity |].
    split; [intros base [| d ds]; reflexivity |].
    split; [intros s base d0; reflexivity |].
    intros s base d0 ds.
    destruct (Union3D_placed (rotateToVec base) s d0 ds) as (u & Hu & _ & He).
    exists u. split; [exact Hu | exact He].
Qed.

(** * Arrays *)

Lemma fold_left_ext (A B : Type) (f g : A -> B -> A) (l : list B) (a : A) :
  (forall a x, f a x = g a x) -> fold_left f l a = fold_left g l a.
Proof.
  intros E. revert a. induction l as [| x l IH]; intros a; simpl;
    [reflexivity | rewrite E; apply IH].
Qed.

Lemma fold_left_flat_map (A B C : Type) (f : A -> C -> A) (g : B -> list C)
    (l : list B) (a : A) :
  fold_left f (flat_map g l) a
  = fold_left (fun a x => fold_left f (g x) a) l a.
Proof.
  revert a. induction l as [| x l IH]; intros a; simpl;
    [reflexivity | rewrite fold_left_app; apply IH].
Qed.

Lemma length_flat_map_const (A B : Type) (g : A -> list B) (k : nat)
    (l : list A) :
  (forall x, List.length (g x) = k) -> List.length (flat_map g l) = (List.length l * k)%nat.
Proof.
  intros E. induction l as [| x l IH]; simpl;
    [reflexivity | rewrite List.length_app, E, IH; reflexivity].
Qed.

Lemma length_loopRange (n : Z) : List.length (loopRange n) = Z.to_nat n.
Proof. unfold loopRange. rewrite List.length_map, List.length_seq. reflexivity. Qed.

Lemma ArraySDF3_Evaluate_offsets (s : ArraySDF3.t) (p : r3.Vec) :
  ArraySDF3.Evaluate s p
  = fold_left (fun d o => ArraySDF3.min s d
                            (Evaluate (ArraySDF3.sdf s) (r3.Sub p o)))
              (arrayOffsets (ArraySDF3.num s) (ArraySDF3.step s)) MaxFloat64.
Proof.
  unfold ArraySDF3.Evaluate, arrayOffsets.
  rewrite fold_left_flat_map. apply fold_left_ext. intros d j.
  rewrite fold_left_flat_map. apply fold_left_ext. intros d' k.
  rewrite fold_left_map. reflexivity.
Qed.

Lemma length_arrayOffsets (num : V3i.t) (step : r3.Vec) :
  List.length (arrayOffsets num step)
  = (Z.to_nat (V3i.i0 num) * (Z.to_nat (V3i.i1 num) * Z.to_nat (V3i.i2 num)))%nat.
Proof.
  unfold arrayOffsets.
  rewrite length_flat_map_const
    with (k := (Z.to_nat (V3i.i1 num) * Z.to_nat (V3i.i2 num))%nat).
  - rewrite length_loopRange. reflexivity.
  - intros j. rewrite length_flat_map_const with (k := Z.to_nat (V3i.i2 num)).
    + rewrite length_loopRange. reflexivity.
    + intros k. rewrite List.length_map, length_loopRange. reflexivity.
Qed.

Lemma Array3D_Evaluate (sdf : SDF3) (num : V3i.t) (step : r3.Vec) (a : SDF3)
    (p : r3.Vec) :
  Array3D sdf num step = Some a ->
  Evaluate a p
  = fold_left (fun d o => math.Min d (Evaluate sdf (r3.Sub p o)))
              (arrayOffsets num step) MaxFloat64.
Proof.
  unfold Array3D.
  destruct ((V3i.i0 num <=? 0)%Z || (V3i.i1 num <=? 0)%Z
            || (V3i.i2 num <=? 0)%Z); [discriminate |].
  intros Ha. injection Ha as <-.
  exact (ArraySDF3_Evaluate_offsets
           (ArraySDF3.mk sdf num step math.Min _) p).
Qed.

(** X20: [Array3D] returns nil exactly when one of the three counts is
    [<= 0]; otherwise the array evaluates at [p] to the left-to-right
    [math.Min], started from [math.MaxFloat64], of the child's distances at
    [p] minus each of the [nx*ny*nz] offsets [(j*step.X, k*step.Y, l*step.Z)],
    visited with [l] innermost. *)
Theorem X20_Array3D (sdf : SDF3) (num : V3i.t) (step : r3.Vec) :
  (Array3D sdf num step = None
   <-> (V3i.i0 num <= 0 \/ V3i.i1 num <= 0 \/ V3i.i2 num <= 0)%Z)
  /\ (forall a : SDF3,
         Array3D sdf num step = Some a ->
         (forall p,
             Evaluate a p
             = fold_left (fun d o => math.Min d (Evaluate sdf (r3.Sub p o)))
                         (arrayOffsets num step) MaxFloat64)
         /\ Z.of_nat (List.length (arrayOffsets num step))
            = (V3i.i0 num * V3i.i1 num * V3i.i2 num)%Z).
Proof.
  unfold Array3D.
  destruct (V3i.i0 num <=? 0)%Z eqn:E0; [| destruct (V3i.i1 num <=? 0)%Z eqn:E1;
                                            [| destruct (V3i.i2 num <=? 0)%Z eqn:E2]];
    simpl; rewrite ?Z.leb_le, ?Z.leb_gt in *.
  - split; [split; auto | discriminate].
  - split; [split; auto | discriminate].
  - split; [split; auto | discriminate].
  - split.
    + split; [discriminate | lia].
    + intros a Ha. split.
      * intros p. apply Array3D_Evaluate. unfold Array3D.
        rewrite (proj2 (Z.leb_gt _ _) E0), (proj2 (Z.leb_gt _ _) E1),
                (proj2 (Z.leb_gt _ _) E2). exact Ha.
      * rewrite length_arrayOffsets. lia.
Qed.

(** X20 on a 2 x 1 x 3 array of [planeX] with step [(10, 0, 0)]: six
    offsets, and at [p = (12, 0, 0)] the nearest copy, at [x = 10], gives
    the distance 2; a zero count gives nil. *)
Lemma X20_Array3D_witness :
  Array3D planeX (V3i.mk 2 0 3) (r3.mkVec 10 0 0) = None
  /\ exists a : SDF3,
       Array3D planeX (V3i.mk 2 1 3) (r3.mkVec 10 0 0) = Some a
       /\ Evaluate a (r3.mkVec 12 0 0) = 2
       /\ List.length (arrayOffsets (V3i.mk 2 1 3) (r3.mkVec 10 0 0)) = 6%nat.
Proof.
  split.
  - apply (proj1 (X20_Array3D planeX (V3i.mk 2 0 3) (r3.mkVec 10 0 0))).
    right; left. simpl. lia.
  - eexists. split; [reflexivity |].
    destruct (proj2 (X20_Array3D planeX (V3i.mk 2 1 3) (r3.mkVec 10 0 0))
                _ eq_refl) as [He Hl].
    split.
    + rewrite He. vm_compute. reflexivity.
    + reflexivity.
Defined.

(** X21: a point strictly inside an array (negative distance) is strictly
    inside one of the translated copies: the child is negative at [p] minus
    one of the array's offsets. *)
Theorem X21_Array3D_inside (sdf : SDF3) (num : V3i.t) (step : r3.Vec)
    (a : SDF3) (p : r3.Vec) :
  Array3D sdf num step = Some a ->
  (Evaluate a p <? 0) = true ->
  Exists (fun o => (Evaluate sdf (r3.Sub p o) <? 0) = true)
         (arrayOffsets num step).
Proof.
  intros Ha Hp. rewrite (Array3D_Evaluate _ _ _ p Ha) in Hp.
  destruct (fold_Min_neg _ _ _ Hp) as [H0 | H]; [discriminate H0 | exact H].
Qed.

(** X21 on the 2 x 1 x 3 array of [unitBall] with step [(10, 0, 0)] at
    [p = (10, 0, 0)], the centre of the second copy. *)
Lemma X21_Array3D_inside_witness :
  Exists (fun o => (Evaluate unitBall (r3.Sub (r3.mkVec 10 0 0) o) <? 0) = true)
         (arrayOffsets (V3i.mk 2 1 3) (r3.mkVec 10 0 0)).
Proof.
  apply (@X21_Array3D_inside unitBall (V3i.mk 2 1 3) (r3.mkVec 10 0 0)
           (ref (ArraySDF3.mk unitBall (V3i.mk 2 1 3) (r3.mkVec 10 0 0) math.Min
                   (d3.Box.Extend (BoundingBox unitBall)
                      (d3.Box.Translate (BoundingBox unitBall)
                         (d3.MulElem (r3.mkVec 10 0 0)
                            (V3i.ToV3 (V3i.SubScalar (V3i.mk 2 1 3) 1)))))))
           (r3.mkVec 10 0 0)).
  - reflexivity.
  - vm_compute. reflexivity.
Defined.

(** * Solids of revolution, again *)

Lemma add_comm (x y : float) : x + y = y + x.
Proof.
  apply Prim2SF_inj. rewrite !FloatAxioms.add_spec. unfold SF64add.
  destruct (Prim2SF x) as [sx | sx | | sx mx ex],
           (Prim2SF y) as [sy | sy | | sy my ey];
    simpl; try reflexivity; try (destruct sx, sy; reflexivity).
  rewrite (Z.min_comm ey ex), Z.add_comm. reflexivity.
Qed.

(** X22: [RevolveTheta3D] with a nil profile returns neither a value nor an
    error, whatever the angle; with a non-nil profile and [theta < 0] it
    fails; and [Revolve3D] of a non-nil profile always succeeds.  Where
    [math.Mod(0, tau)] is zero, the full revolution evaluates at [(x,y,z)]
    to the profile's distance at [(sqrt(x^2+y^2), z)], so it is unchanged by
    negating [x] or [y] and by exchanging them. *)
Theorem X22_Revolve3D (Mod : float -> float -> float)
    (Sin Cos : float -> float) :
  (forall theta, RevolveTheta3D Mod Sin Cos None theta = (None, None))
  /\ (forall profile theta,
         (theta <? 0) = true ->
         failed (RevolveTheta3D Mod Sin Cos (Some profile) theta))
  /\ (forall profile : SDF2,
         exists s : SDF3,
           Revolve3D Mod Sin Cos (Some profile) = ok s
           /\ ((Mod (math.Abs 0) tau =? 0) = true ->
               forall x y z,
                 Evaluate s (r3.mkVec x y z)
                 = Evaluate2 profile
                     (r2.mkVec (math.Sqrt (x * x + y * y)) z)
                 /\ Evaluate s (r3.mkVec (- x) y z) = Evaluate s (r3.mkVec x y z)
                 /\ Evaluate s (r3.mkVec x (- y) z) = Evaluate s (r3.mkVec x y z)
                 /\ Evaluate s (r3.mkVec y x z) = Evaluate s (r3.mkVec x y z))).
Proof.
  split; [reflexivity |]. split.
  - intros profile theta H. unfold RevolveTheta3D. rewrite H. apply failed_fail.
  - intros profile. eexists. split; [reflexivity |].
    intros H0.
    assert (forall x y z,
               Evaluate (ref (newSorSDF3 Mod Sin Cos profile 0)) (r3.mkVec x y z)
               = Evaluate2 profile (r2.mkVec (math.Sqrt (x * x + y * y)) z))
      as E.
    { intros x y z. cbn [Evaluate ref evaluate SorSDF3_SDF3].
      unfold SorSDF3.Evaluate, newSorSDF3.
      cbn [SorSDF3.theta SorSDF3.sdf SorSDF3.norm r3.X r3.Y r3.Z].
      rewrite H0. cbn [negb]. apply Max_idem. }
    intros x y z. rewrite !E.
    rewrite !mul_opp_opp, (add_comm (y * y)). repeat split; reflexivity.
Qed.

(** X22 for the unit disc, with [Mod], [Sin] and [Cos] given by their
    values at the only angle the full revolution uses, 0: the revolved disc
    is the unit ball, at distance 4 from [(3,4,0)] and from [(4,3,0)]. *)
Lemma X22_Revolve3D_witness :
  let Mod : float -> float -> float := fun x _ => x in
  let Sin : float -> float := fun _ => 0 in
  let Cos : float -> float := fun _ => 1 in
  exists s : SDF3,
    Revolve3D Mod Sin Cos (Some unitDisc) = ok s
    /\ Evaluate s (r3.mkVec 3 4 0) = 4
    /\ Evaluate s (r3.mkVec 4 3 0) = Evaluate s (r3.mkVec 3 4 0).
Proof.
  intros Mod Sin Cos.
  destruct (X22_Revolve3D Mod Sin Cos) as (_ & _ & H).
  destruct (H unitDisc) as (s & Hs & He).
  exists s. split; [exact Hs |].
  destruct (He eq_refl 3 4 0) as (E & _ & _ & Hswap).
  split; [rewrite E; vm_compute; reflexivity | exact Hswap].
Defined.

(** X23: a point strictly inside a solid of revolution, full or partial,
    has its [(sqrt(x^2+y^2), z)] strictly inside the profile: the wedge only
    removes points. *)
Theorem X23_SorSDF3_inside (s : SorSDF3.t) (p : r3.Vec) :
  (Evaluate (ref s) p <? 0) = true ->
  (Evaluate2 (SorSDF3.sdf s)
     (r2.mkVec (math.Sqrt (r3.X p * r3.X p + r3.Y p * r3.Y p)) (r3.Z p)) <? 0)
  = true.
Proof.
  cbn [Evaluate ref evaluate SorSDF3_SDF3]. unfold SorSDF3.Evaluate.
  intros H. apply Max_neg in H. apply H.
Qed.

(** X23 on a quarter turn of the unit disc at [p = (0.25, 0.25, 0)]. *)
Lemma X23_SorSDF3_inside_witness :
  (Evaluate2 unitDisc
     (r2.mkVec (math.Sqrt (0.25 * 0.25 + 0.25 * 0.25)) 0) <? 0) = true.
Proof.
  apply (@X23_SorSDF3_inside
           (sorOf 0x1.921fb54442d18p+0 (r2.mkVec (-1) 0x1.1a62633145c07p-54))
           (r3.mkVec 0.25 0.25 0)).
  vm_compute. reflexivity.
Defined.

(** * Elongation flattens the field inside its box *)

Lemma is_finite_spec (x : float) :
  is_finite x = true ->
  (exists s, Prim2SF x = S754_zero s)
  \/ (exists s m e, Prim2SF x = S754_finite s m e).
Proof.
  unfold is_finite, is_nan, is_infinity.
  rewrite !FloatAxioms.eqb_spec, FloatAxioms.abs_spec. unfold SFeqb.
  change (Prim2SF infinity) with (S754_infinity false).
  destruct (Prim2SF x) as [s | s | | s m e]; intros H.
  - left. exists s. reflexivity.
  - destruct s; discriminate H.
  - discriminate H.
  - right. exists s, m, e. reflexivity.
Qed.

Lemma sub_diag (x : float) : is_finite x = true -> x - x = 0.
Proof.
  intros H. apply Prim2SF_inj. rewrite FloatAxioms.sub_spec. unfold SF64sub.
  change (Prim2SF 0) with (S754_zero false).
  destruct (is_finite_spec x H) as [[s E] | (s & m & e & E)]; rewrite E.
  - destruct s; reflexivity.
  - unfold SFsub. rewrite Z.min_id. unfold shl_align.
    match goal with
    | |- context [match ?d with Z0 => _ | Zpos _ => _ | Zneg _ => _ end] =>
        replace d with 0%Z by (symmetry; apply Z.sub_diag)
    end.
    cbn [fst].
    match goal with
    | |- binary_normalize _ _ ?t _ _ = _ =>
        replace t with 0%Z by (symmetry; apply Z.sub_diag)
    end.
    reflexivity.
Qed.

Lemma clamp_inside (x a b : float) :
  (x <? a) = false -> (b <? x) = false -> d3.clamp x a b = x.
Proof. intros H1 H2. unfold d3.clamp. rewrite H1, H2. reflexivity. Qed.

(** X24: for every finite point [p] that on each axis is neither below
    [-|h|/2] nor above [|h|/2], [Elongate3D(sdf, h)] returns the child's
    distance at the origin: the field is constant across the elongation
    box. *)
Theorem X24_Elongate3D_inside (sdf : SDF3) (h p : r3.Vec) :
  is_finite (r3.X p) = true -> is_finite (r3.Y p) = true ->
  is_finite (r3.Z p) = true ->
  (r3.X p <? -0.5 * math.Abs (r3.X h)) = false ->
  (0.5 * math.Abs (r3.X h) <? r3.X p) = false ->
  (r3.Y p <? -0.5 * math.Abs (r3.Y h)) = false ->
  (0.5 * math.Abs (r3.Y h) <? r3.Y p) = false ->
  (r3.Z p <? -0.5 * math.Abs (r3.Z h)) = false ->
  (0.5 * math.Abs (r3.Z h) <? r3.Z p) = false ->
  Evaluate (Elongate3D sdf h) p = Evaluate sdf (r3.mkVec 0 0 0).
Proof.
  intros Fx Fy Fz X1 X2 Y1 Y2 Z1 Z2.
  cbn [Evaluate Elongate3D ref evaluate ElongateSDF3_SDF3].
  unfold ElongateSDF3.Evaluate.
  cbn [ElongateSDF3.sdf ElongateSDF3.hn ElongateSDF3.hp].
  unfold d3.Clamp, d3.AbsElem, r3.Scale, r3.Sub.
  cbn [r3.X r3.Y r3.Z].
  rewrite (clamp_inside X1 X2), (clamp_inside Y1 Y2), (clamp_inside Z1 Z2).
  rewrite (sub_diag _ Fx), (sub_diag _ Fy), (sub_diag _ Fz). reflexivity.
Qed.

(** X24 for [unitBall] elongated by [(4, 0, -2)] at [p = (1.5, 0, -1)]:
    the distance is that at the centre of the ball, [-1]. *)
Lemma X24_Elongate3D_inside_witness :
  Evaluate (Elongate3D unitBall (r3.mkVec 4 0 (-2))) (r3.mkVec 1.5 0 (-1)) = -1.
Proof.
  rewrite (@X24_Elongate3D_inside unitBall (r3.mkVec 4 0 (-2))
             (r3.mkVec 1.5 0 (-1)));
    vm_compute; reflexivity.
Defined.

(** * Boxes of the accepted primitives *)

(** X25: when their guards pass, [Box3D], [Sphere3D] and [Cylinder3D]
    return a value and no error, and its bounding box is centred at the
    origin with the nominal half extents [size/2], [radius] and
    [(radius, radius, height/2)]: [round] does not enter the box. *)
Theorem X25_primitive_boxes :
  (forall size round,
      d3.LTEZero size = false -> (round <? 0) = false ->
      exists s : SDF3,
        Box3D size round = ok s
        /\ BoundingBox s
           = d3.Box.mk (r3.Scale (-1) (r3.Scale 0.5 size)) (r3.Scale 0.5 size))
  /\ (forall radius,
         (radius <=? 0) = false ->
         exists s : SDF3,
           Sphere3D radius = ok s
           /\ BoundingBox s
              = d3.Box.mk (r3.Scale (-1) (r3.mkVec radius radius radius))
                          (r3.mkVec radius radius radius))
  /\ (forall sdfBox2d height radius round,
         (radius <=? 0) = false -> (round <? 0) = false ->
         (radius <? round) = false -> (height <? 2 * round) = false ->
         exists s : SDF3,
           Cylinder3D sdfBox2d height radius round = ok s
           /\ BoundingBox s
              = d3.Box.mk (r3.Scale (-1) (r3.mkVec radius radius (height / 2)))
                          (r3.mkVec radius radius (height / 2))).
Proof.
  split; [| split].
  - intros size round H1 H2. unfold Box3D. rewrite H1, H2.
    eexists. split; reflexivity.
  - intros radius H. unfold Sphere3D. rewrite H. eexists. split; reflexivity.
  - intros f height radius round H1 H2 H3 H4. unfold Cylinder3D.
    rewrite H1, H2, H3, H4. eexists. split; reflexivity.
Qed.

(** X25 on [Box3D({2,4,6}, 0.5)], [Sphere3D(2)] and
    [Cylinder3D(4, 1, 0.5)]. *)
Lemma X25_primitive_boxes_witness :
  (exists s : SDF3,
      Box3D (r3.mkVec 2 4 6) 0.5 = ok s
      /\ BoundingBox s = d3.Box.mk (r3.mkVec (-1) (-2) (-3)) (r3.mkVec 1 2 3))
  /\ (exists s : SDF3,
         Sphere3D 2 = ok s
         /\ BoundingBox s
            = d3.Box.mk (r3.mkVec (-2) (-2) (-2)) (r3.mkVec 2 2 2))
  /\ (forall sdfBox2d,
         exists s : SDF3,
           Cylinder3D sdfBox2d 4 1 0.5 = ok s
           /\ BoundingBox s
              = d3.Box.mk (r3.mkVec (-1) (-1) (-2)) (r3.mkVec 1 1 2)).
Proof.
  destruct X25_primitive_boxes as (HB & HS & HC).
  split; [| split].
  - destruct (HB (r3.mkVec 2 4 6) 0.5 eq_refl eq_refl) as (s & Hs & Hb).
    exists s. split; [exact Hs |]. rewrite Hb. vm_compute. reflexivity.
  - destruct (HS 2 eq_refl) as (s & Hs & Hb).
    exists s. split; [exact Hs |]. rewrite Hb. vm_compute. reflexivity.
  - intros f.
    destruct (HC f 4 1 0.5 eq_refl eq_refl eq_refl eq_refl) as (s & Hs & Hb).
    exists s. split; [exact Hs |]. rewrite Hb. vm_compute. reflexivity.
Defined.

(** * Rotational union *)

Lemma RotateUnion_loop (m44 : Type) `{M44Ops m44} (Mul : m44 -> m44 -> m44)
    (min : MinFunc) (sdf : SDF3) (step : m44) (p : r3.Vec)
    (l : list Z) (d : float) (rot : m44) :
  fst (fold_left
         (fun (acc : float * m44) (_ : Z) =>
            let '(d, rot) := acc in
            (min d (Evaluate sdf (MulPosition rot p)), Mul rot step))
         l (d, rot))
  = fold_left (fun d rot => min d (Evaluate sdf (MulPosition rot p)))
              (rotationsFrom Mul rot step (List.length l)) d.
Proof.
  revert d rot. induction l as [| x l IH]; intros d rot; simpl;
    [reflexivity | apply IH].
Qed.

Lemma length_rotationsFrom (m44 : Type) (Mul : m44 -> m44 -> m44)
    (rot step : m44) (n : nat) :
  List.length (rotationsFrom Mul rot step n) = n.
Proof.
  revert rot. induction n as [| n IH]; intros rot; simpl;
    [reflexivity | rewrite IH; reflexivity].
Qed.

(** X26: [RotateUnion3D] returns nil exactly when [num <= 0]; otherwise the
    node evaluates at [p] to the left-to-right [math.Min], started from
    [math.MaxFloat64], of the child's distances at [rot * p] for the [num]
    matrices [I, I*S, (I*S)*S, ...] with [S] the inverse of the step; so a
    point strictly inside the node is carried strictly inside the child by
    one of them. *)
Theorem X26_RotateUnion3D (m44 : Type) `{M44Ops m44} (Identity3d : m44)
    (Mul : m44 -> m44 -> m44) (sdf : SDF3) (num : Z) (step : m44) :
  (RotateUnion3D Identity3d Mul sdf num step = None <-> (num <= 0)%Z)
  /\ (forall u : SDF3,
         RotateUnion3D Identity3d Mul sdf num step = Some u ->
         forall p,
           let rots := rotationsFrom Mul Identity3d (Inverse step)
                                     (Z.to_nat num) in
           List.length rots = Z.to_nat num
           /\ Evaluate u p
              = fold_left (fun d rot =>
                             math.Min d (Evaluate sdf (MulPosition rot p)))
                          rots MaxFloat64
           /\ ((Evaluate u p <? 0) = true ->
               Exists (fun rot =>
                         (Evaluate sdf (MulPosition rot p) <? 0) = true)
                      rots)).
Proof.
  unfold RotateUnion3D.
  destruct (num <=? 0)%Z eqn:E; rewrite ?Z.leb_le, ?Z.leb_gt in E.
  - split; [split; auto | discriminate].
  - destruct (fold_left _ (loopRange num) _) as [[bbMin bbMax] v'].
    split; [split; [discriminate | lia] |].
    intros u Hu. injection Hu as <-. intros p. cbv zeta.
    set (rots := rotationsFrom Mul Identity3d (Inverse step) (Z.to_nat num)).
    assert (Evaluate
              (@ref _ (RotateUnionSDF3_SDF3 Identity3d Mul)
                 (RotateUnionSDF3.mk sdf num (Inverse step) math.Min
                    (d3.Box.mk bbMin bbMax))) p
            = fold_left (fun d rot =>
                           math.Min d (Evaluate sdf (MulPosition rot p)))
                        rots MaxFloat64) as He.
    { cbn [Evaluate ref evaluate RotateUnionSDF3_SDF3].
      unfold RotateUnionSDF3.Evaluate.
      cbn [RotateUnionSDF3.min RotateUnionSDF3.sdf RotateUnionSDF3.step
           RotateUnionSDF3.num].
      rewrite (RotateUnion_loop Mul math.Min sdf (Inverse step) p).
      rewrite length_loopRange. reflexivity. }
    split; [| split].
    + apply length_rotationsFrom.
    + exact He.
    + rewrite He. intros Hp.
      destruct (fold_Min_neg _ _ _ Hp) as [H0 | Hx];
        [discriminate H0 | exact Hx].
Qed.

(** X26 with the matrix model and the step [shearXY], whose inverse maps
    [(x, y, z)] to [(x - y, y, z)]: two copies of [planeX]; at
    [p = (1, 3, 0)] the second copy sees [x = 1 - 3] and the node is
    negative. *)
Lemma X26_RotateUnion3D_witness :
  exists u : SDF3,
    RotateUnion3D m44.Identity3d m44_Mul planeX 2 shearXY = Some u
    /\ Evaluate u (r3.mkVec 1 3 0) = -2
    /\ Exists (fun rot =>
                 (Evaluate planeX (MulPosition rot (r3.mkVec 1 3 0)) <? 0)
                 = true)
              (rotationsFrom m44_Mul m44.Identity3d (m44.Inverse shearXY) 2).
Proof.
  destruct (RotateUnion3D m44.Identity3d m44_Mul planeX 2 shearXY)
    as [u |] eqn:Hu; [| vm_compute in Hu; discriminate Hu].
  exists u. split; [reflexivity |].
  destruct (proj2 (X26_RotateUnion3D m44.Identity3d m44_Mul planeX 2 shearXY)
              u Hu (r3.mkVec 1 3 0)) as (_ & He & Hin).
  split.
  - rewrite He. vm_compute. reflexivity.
  - apply Hin. rewrite He. vm_compute. reflexivity.
Defined.
